(** * Semester organizer: the Course value object and the Database queries

    A shallow embedding of [src/data/course.py] and of the query methods of
    [src/collector/db/db.py] ([load_campus_id], [load_active_courses],
    [load_courses_choices], [load_activities_by_courses_choices],
    [load_academic_activities], [save_campuses], [load_campuses],
    [load_campus_names]).

    Python dictionaries and sets are finite maps and finite sets, SQL tables
    are lists of rows in storage order, and a raised exception is the
    [Raise] case of [result]. *)

From stdpp Require Import gmap strings list fin_maps.
From Stdlib Require Import ZArith.

Local Open Scope Z_scope.

(* stdpp's solvers clear hypotheses that are already gone. *)
#[local] Set Warnings "-clear-no-such-hyp".

(** ** Exceptions *)

(** The two exceptions the modelled methods can raise: [TypeError] is what
    [cursor.fetchone()[0]] raises when [fetchone()] is [None], and
    [OperationalError] is what sqlite3 raises for a query on a table that
    does not exist. *)
Inductive PyError := TypeError | OperationalError.

Inductive result (A : Type) :=
  | Ok (a : A)
  | Raise (e : PyError).
Arguments Ok {A} a.
Arguments Raise {A} e.

Definition bind {A B} (r : result A) (k : A → result B) : result B :=
  match r with
  | Ok a => k a
  | Raise e => Raise e
  end.

Notation "'let*' x := r 'in' k" := (bind r (λ x, k))
  (at level 10, x name, r at level 100, k at level 200).

Definition raises {A} (r : result A) : Prop := ∃ e, r = Raise e.

(** ** Enumerations of [data/] used by the modelled code *)

Module Type_.
(** Modelled from the spec: [data/type.py] is not among the sources.  The
    first four members are the ones [db.py] names; the spec's data model
    gives the kind as "lecture, seminar, practice, lab, or other", with
    lecture and seminar "lecture-like" and practice and lab "practice-like",
    which is what [is_lecture] and [is_exercise] below answer. *)
Inductive t := LECTURE | SEMINAR | PRACTICE | LAB | OTHER.

#[global] Instance eq_dec : EqDecision t.
Proof. solve_decision. Defined.

Definition is_lecture (ty : t) : bool :=
  match ty with LECTURE | SEMINAR => true | _ => false end.

Definition is_exercise (ty : t) : bool :=
  match ty with PRACTICE | LAB => true | _ => false end.
End Type_.

(** Modelled from the spec: [data/semester.py] is not among the sources.  The
    spec's Course has a "set of semesters offered"; a member of the
    enumeration is represented by its integer [value], which is what [db.py]
    stores in [semesters_courses]. *)
Record Semester := { value : Z }.

#[global] Instance Semester_eq_dec : EqDecision Semester.
Proof. solve_decision. Defined.

#[global] Instance Semester_countable : Countable Semester.
Proof. apply (inj_countable' value (λ v, {| value := v |})). by intros []. Defined.

(** Modelled from the spec: [data/language.py] is not among the sources.  The
    language is one half of the spec's scope; [db.py] and the tests name its
    two members. *)
Inductive Language := ENGLISH | HEBREW.

(** ** [data/course.py] *)

Module Course.

Record t := mk {
  name : string;
  course_number : Z;
  parent_course_number : Z;
  attendance_required_for_lecture : bool;
  attendance_required_for_practice : bool;
  activity_id : option string;
  actual_course_number : option Z;
  semesters : gset Semester;
}.

(** The [semesters] argument of [__init__] and [add_semesters]: a single
    [Semester] or a set of them. *)
Definition as_set (s : Semester + gset Semester) : gset Semester :=
  match s with
  | inl one => {[ one ]}
  | inr many => many
  end.

Definition __init__ (name : string) (course_number parent_course_number : Z)
    (activity_id : option string) (actual_course_number : option Z)
    (semesters : option (Semester + gset Semester)) : t :=
  {| name := name;
     course_number := course_number;
     parent_course_number := parent_course_number;
     attendance_required_for_lecture := true;
     attendance_required_for_practice := true;
     activity_id := activity_id;
     actual_course_number := actual_course_number;
     semesters := from_option as_set ∅ semesters |}.

Definition add_semesters (self : t) (s : Semester + gset Semester) : t :=
  {| name := name self;
     course_number := course_number self;
     parent_course_number := parent_course_number self;
     attendance_required_for_lecture := attendance_required_for_lecture self;
     attendance_required_for_practice := attendance_required_for_practice self;
     activity_id := activity_id self;
     actual_course_number := actual_course_number self;
     semesters := semesters self ∪ as_set s |}.

(** Truth value of an [activity_id]: [None] and the empty string are falsy. *)
Definition truthy (o : option string) : bool :=
  match o with
  | Some s => negb (bool_decide (s = ""%string))
  | None => false
  end.

Definition __eq__ (self other : t) : bool :=
  if truthy (activity_id self) && truthy (activity_id other)
  then bool_decide (activity_id self = activity_id other)
  else bool_decide (name self = name other)
       && bool_decide (course_number self = course_number other)
       && bool_decide (parent_course_number self = parent_course_number other).

(** The tuple [__hash__] passes to the built-in [hash]. *)
Definition hash_key (self : t) : string * Z * Z :=
  (name self, course_number self, parent_course_number self).

(** [__hash__], over the interpreter's [hash] on such tuples. *)
Definition __hash__ (py_hash : string * Z * Z → Z) (self : t) : Z :=
  py_hash (hash_key self).

Definition set_attendance_required (self : t) (course_type : Type_.t)
    (required : bool) : t :=
  if Type_.is_lecture course_type then
    {| name := name self;
       course_number := course_number self;
       parent_course_number := parent_course_number self;
       attendance_required_for_lecture := required;
       attendance_required_for_practice := attendance_required_for_practice self;
       activity_id := activity_id self;
       actual_course_number := actual_course_number self;
       semesters := semesters self |}
  else if Type_.is_exercise course_type then
    {| name := name self;
       course_number := course_number self;
       parent_course_number := parent_course_number self;
       attendance_required_for_lecture := attendance_required_for_lecture self;
       attendance_required_for_practice := required;
       activity_id := activity_id self;
       actual_course_number := actual_course_number self;
       semesters := semesters self |}
  else self.

Definition is_attendance_required (self : t) (course_type : Type_.t) : bool :=
  if Type_.is_lecture course_type then attendance_required_for_lecture self
  else if Type_.is_exercise course_type then attendance_required_for_practice self
  else true.

(** The four fields [__eq__] and [__hash__] read. *)
Definition identity (self : t) : string * Z * Z * option string :=
  (name self, course_number self, parent_course_number self, activity_id self).

End Course.

(** ** [collector/db/db.py] *)

(** Modelled from the spec: the classes [CourseChoice], [Meeting] and
    [AcademicActivity] of [data/] are not among the sources.  A CourseChoice
    is a "course name plus two unordered collections of lecturer names",
    built by [db.py] from two lists; a Meeting and an AcademicActivity carry
    the columns [db.py] unpacks into them. *)
Record CourseChoice := {
  choice_name : string;
  available_teachers_for_lecture : list string;
  available_teachers_for_practice : list string;
}.

Record Meeting := {
  meeting_id : Z;
  day : Z;
  start_time : string;
  end_time : string;
}.

Record AcademicActivity := {
  name : string;
  type : Type_.t;
  attendance_required : bool;
  lecturer_name : option string;
  course_number : Z;
  parent_course_number : Z;
  location : string;
  activity_id : string;
  description : string;
  current_capacity : Z;
  max_capacity : Z;
  actual_course_number : Z;
  meetings : list Meeting;
}.

(** Rows of the tables created by [init_database_tables], one field per
    column, in column order.  [lecturer_name] of [activities] is nullable,
    and the retrieval query tests it with [IS NOT NULL]. *)
Record campuses_row := {
  cp_id : Z;
  cp_english_name : string;
  cp_hebrew_name : string;
}.

Record courses_row := {
  co_name : string;
  co_course_number : Z;
  co_parent_course_number : Z;
  co_language_value : string;
}.

Record courses_lecturers_row := {
  cl_course_number : Z;
  cl_parent_course_number : Z;
  cl_lecturer_name : string;
  cl_is_lecture_rule : bool;
  cl_campus_id : Z;
  cl_language_value : string;
}.

Record activities_row := {
  ac_name : string;
  ac_activity_type : Type_.t;
  ac_attendance_required : bool;
  ac_lecturer_name : option string;
  ac_course_number : Z;
  ac_parent_course_number : Z;
  ac_location : string;
  ac_activity_id : string;
  ac_description : string;
  ac_current_capacity : Z;
  ac_max_capacity : Z;
  ac_actual_course_number : Z;
  ac_campus_id : Z;
  ac_language_value : string;
}.

Record activities_meetings_row := {
  am_activity_id : string;
  am_meeting_id : Z;
  am_campus_id : Z;
  am_language_value : string;
}.

Record meetings_row := {
  mt_id : Z;
  mt_day : Z;
  mt_start_time : string;
  mt_end_time : string;
}.

Record Tables := {
  campuses : list campuses_row;
  courses : list courses_row;
  courses_lecturers : list courses_lecturers_row;
  activities : list activities_row;
  activities_meetings : list activities_meetings_row;
  meetings_table : list meetings_row;
}.

#[global] Instance courses_row_eq_dec : EqDecision courses_row.
Proof. solve_decision. Defined.

(** The primary key declared for [activities]. *)
Definition activities_key (r : activities_row) : string * Z * string :=
  (ac_activity_id r, ac_campus_id r, ac_language_value r).

Definition activities_primary_key (tb : Tables) : Prop :=
  NoDup (activities_key <$> activities tb).

Module Database.
Section Queries.

(** [Language.short_name], the two-character code stored in the
    [language_value] columns; [data/language.py] is not among the sources. *)
Variable short_name : Language → string.

(** The file at [DATABASE_PATH]: [None] when [os.path.exists] is false,
    otherwise the tables of the database. *)
Implicit Types (store : option Tables) (tb : Tables).

Definition load_campus_id store (campus_name : string) : result Z :=
  match store with
  | None => Raise OperationalError
  | Some tb =>
      match filter (λ r, cp_english_name r = campus_name
                         ∨ cp_hebrew_name r = campus_name) (campuses tb) with
      | r :: _ => Ok (cp_id r)
      | [] => Raise TypeError
      end
  end.

(** A row of [courses] unpacked into the positional parameters of
    [Course]: the fourth column lands in the fourth parameter of
    [__init__]. *)
Definition course_of_row (r : courses_row) : Course.t :=
  Course.__init__ (co_name r) (co_course_number r) (co_parent_course_number r)
    (Some (co_language_value r)) None None.

Definition load_active_courses store (campus_name : string)
    (language : Language) : result (list Course.t) :=
  match store with
  | None => Ok []
  | Some tb =>
      let* campus_id := load_campus_id store campus_name in
      Ok (course_of_row <$> remove_dups
            (c ← courses tb;
             a ← activities tb;
             if decide (co_parent_course_number c = ac_parent_course_number a
                        ∧ co_course_number c = ac_course_number a
                        ∧ co_language_value c = ac_language_value a
                        ∧ ac_campus_id a = campus_id
                        ∧ co_language_value c = short_name language)
             then [c] else []))
  end.

(** The rows fetched for one course in the loop of [load_courses_choices]. *)
Definition lecturer_roles tb (campus_id : Z) (language : Language)
    (course : Course.t) : list (string * bool) :=
  (λ r, (cl_lecturer_name r, cl_is_lecture_rule r)) <$>
  filter (λ r, cl_course_number r = Course.course_number course
               ∧ cl_parent_course_number r = Course.parent_course_number course
               ∧ cl_campus_id r = campus_id
               ∧ cl_language_value r = short_name language)
         (courses_lecturers tb).

(** [courses_choices_data[course_name][index].add(lecturer_name)] on the
    [defaultdict]: a missing key is first bound to two empty sets. *)
Definition add_lecturer (course_name lecturer : string) (is_lecture_rule : bool)
    (data : gmap string (gset string * gset string))
    : gmap string (gset string * gset string) :=
  let entry := default (∅, ∅) (data !! course_name) in
  <[course_name :=
      if is_lecture_rule then ({[ lecturer ]} ∪ entry.1, entry.2)
      else (entry.1, {[ lecturer ]} ∪ entry.2)]> data.

Definition collect_course tb (campus_id : Z) (language : Language)
    (data : gmap string (gset string * gset string)) (course : Course.t)
    : gmap string (gset string * gset string) :=
  foldl (λ d row, add_lecturer (Course.name course) row.1 row.2 d)
        data (lecturer_roles tb campus_id language course).

Definition make_choice (course_name : string)
    (sets : gset string * gset string) : CourseChoice :=
  {| choice_name := course_name;
     available_teachers_for_lecture := elements sets.1;
     available_teachers_for_practice := elements sets.2 |}.

(** The loop over [courses], from the empty [defaultdict]. *)
Definition collect_courses tb (campus_id : Z) (language : Language)
    (courses : list Course.t) : gmap string (gset string * gset string) :=
  foldl (collect_course tb campus_id language) ∅ courses.

(** The dictionary comprehension over [courses_choices_data.items()]. *)
Definition materialize (data : gmap string (gset string * gset string))
    : gmap string CourseChoice :=
  map_imap (λ course_name sets, Some (make_choice course_name sets)) data.

Definition load_courses_choices store (campus_name : string) (language : Language)
    (courses : option (list Course.t)) : result (gmap string CourseChoice) :=
  match store with
  | None => Raise OperationalError
  | Some tb =>
      let* campus_id := load_campus_id store campus_name in
      let* courses :=
        match courses with
        | Some (c :: cs) => Ok (c :: cs)
        | _ => load_active_courses store campus_name language
        end in
      Ok (materialize (collect_courses tb campus_id language courses))
  end.

Definition lecture_types : list Type_.t := [Type_.LECTURE; Type_.SEMINAR].
Definition practice_types : list Type_.t := [Type_.PRACTICE; Type_.LAB].

(** [lecturer_name in (?, ..., ?)] when teachers were chosen, otherwise
    [lecturer_name IS NOT NULL]. *)
Definition lecturer_condition (teachers : list string)
    (lecturer : option string) : bool :=
  match teachers with
  | [] => bool_decide (is_Some lecturer)
  | _ :: _ =>
      match lecturer with
      | Some l => bool_decide (l ∈ teachers)
      | None => false
      end
  end.

(** The [WHERE] clause of the activities query. *)
Definition activity_selected (course_name : string) (course_choice : CourseChoice)
    (campus_id : Z) (language : Language) (r : activities_row) : bool :=
  bool_decide (ac_name r = course_name)
  && bool_decide (ac_language_value r = short_name language)
  && bool_decide (ac_campus_id r = campus_id)
  && ((bool_decide (ac_activity_type r ∈ lecture_types)
       && lecturer_condition (available_teachers_for_lecture course_choice)
                             (ac_lecturer_name r))
      || (bool_decide (ac_activity_type r ∈ practice_types)
          && lecturer_condition (available_teachers_for_practice course_choice)
                                (ac_lecturer_name r))).

Definition meeting_of_row (r : meetings_row) : Meeting :=
  {| meeting_id := mt_id r; day := mt_day r;
     start_time := mt_start_time r; end_time := mt_end_time r |}.

(** The meetings query: [meetings] joined with [activities_meetings]. *)
Definition load_meetings tb (activity : string) (campus_id : Z)
    (language : Language) : list Meeting :=
  meeting_of_row <$>
    (m ← meetings_table tb;
     am ← activities_meetings tb;
     if decide (mt_id m = am_meeting_id am
                ∧ am_activity_id am = activity
                ∧ am_campus_id am = campus_id
                ∧ am_language_value am = short_name language)
     then [m] else []).

(** A row of [activities] without its last two columns, unpacked into
    [AcademicActivity], followed by the assignment of its meetings. *)
Definition activity_of_row tb (campus_id : Z) (language : Language)
    (r : activities_row) : AcademicActivity :=
  {| name := ac_name r;
     type := ac_activity_type r;
     attendance_required := ac_attendance_required r;
     lecturer_name := ac_lecturer_name r;
     course_number := ac_course_number r;
     parent_course_number := ac_parent_course_number r;
     location := ac_location r;
     activity_id := ac_activity_id r;
     description := ac_description r;
     current_capacity := ac_current_capacity r;
     max_capacity := ac_max_capacity r;
     actual_course_number := ac_actual_course_number r;
     meetings := load_meetings tb (ac_activity_id r) campus_id language |}.

(** One iteration of the loop over [courses_choices.items()]. *)
Definition activities_of_choice tb (campus_id : Z) (language : Language)
    (item : string * CourseChoice) : list AcademicActivity :=
  activity_of_row tb campus_id language <$>
  filter (λ r, activity_selected item.1 item.2 campus_id language r = true)
         (activities tb).

Definition load_activities_by_courses_choices store
    (courses_choices : gmap string CourseChoice) (campus_name : string)
    (language : Language) : result (list AcademicActivity) :=
  match store with
  | None => Ok []
  | Some tb =>
      let* campus_id := load_campus_id store campus_name in
      Ok (item ← map_to_list courses_choices;
          activities_of_choice tb campus_id language item)
  end.

(** The lecturers collected so far for a course name and a role, read from
    the [defaultdict] without creating the key. *)
Definition role_set (is_lecture_rule : bool)
    (data : gmap string (gset string * gset string)) (course_name : string)
    : gset string :=
  let entry := default (∅, ∅) (data !! course_name) in
  if is_lecture_rule then entry.1 else entry.2.

(** The role's list of a [CourseChoice]. *)
Definition teachers (is_lecture_rule : bool) (course_choice : CourseChoice)
    : list string :=
  if is_lecture_rule then available_teachers_for_lecture course_choice
  else available_teachers_for_practice course_choice.

(** A campus name some row of [campuses] carries. *)
Definition known_campus tb (campus_name : string) : Prop :=
  ∃ r, r ∈ campuses tb
       ∧ (cp_english_name r = campus_name ∨ cp_hebrew_name r = campus_name).

(** [load_academic_activities]: the activities of the scope whose
    [parent_course_number] is one of the courses', each with its meetings. *)
Definition load_academic_activities store (campus_name : string)
    (language : Language) (courses : list Course.t)
    : result (list AcademicActivity) :=
  match store with
  | None => Ok []
  | Some tb =>
      let* campus_id := load_campus_id store campus_name in
      let courses_parent_numbers := Course.parent_course_number <$> courses in
      Ok (activity_of_row tb campus_id language <$>
          filter (λ r, ac_campus_id r = campus_id
                       ∧ ac_language_value r = short_name language
                       ∧ ac_parent_course_number r ∈ courses_parent_numbers)
                 (activities tb))
  end.

(** [INSERT OR IGNORE INTO campuses]: a row whose [id], the primary key, is
    already in the table is dropped. *)
Definition insert_or_ignore_campus (rows : list campuses_row)
    (r : campuses_row) : list campuses_row :=
  if decide (cp_id r ∈ cp_id <$> rows) then rows else rows ++ [r].

Definition campus_row_of_item (item : Z * (string * string)) : campuses_row :=
  {| cp_id := item.1; cp_english_name := item.2.1; cp_hebrew_name := item.2.2 |}.

(** [save_campuses]; the result is the database after the commit.  Without
    a database file the insertion finds no table. *)
Definition save_campuses store (new_campuses : gmap Z (string * string))
    : result Tables :=
  match store with
  | None => Raise OperationalError
  | Some tb =>
      Ok {| campuses :=
              foldl (λ rows item,
                       insert_or_ignore_campus rows (campus_row_of_item item))
                    (campuses tb) (map_to_list new_campuses);
            courses := courses tb;
            courses_lecturers := courses_lecturers tb;
            activities := activities tb;
            activities_meetings := activities_meetings tb;
            meetings_table := meetings_table tb |}
  end.

(** [load_campuses]: the dictionary comprehension over the rows, a later row
    replacing an earlier one of the same id. *)
Definition load_campuses store : gmap Z (string * string) :=
  match store with
  | None => ∅
  | Some tb =>
      foldl (λ d r, <[cp_id r := (cp_english_name r, cp_hebrew_name r)]> d)
            ∅ (campuses tb)
  end.

(** [load_campus_names]; [current] is the answer of [Language.get_current],
    used when no language is passed. *)
Definition load_campus_names (current : Language) store
    (language : option Language) : list string :=
  match store with
  | None => []
  | Some tb =>
      let language := default current language in
      (match language with
       | ENGLISH => cp_english_name
       | HEBREW => cp_hebrew_name
       end) <$> campuses tb
  end.

(** The primary key declared for [campuses]. *)
Definition campuses_primary_key tb : Prop := NoDup (cp_id <$> campuses tb).

End Queries.
End Database.

(** ** A small database used by the examples *)

Module Example.
Local Open Scope string_scope.

(** An instance of [short_name]. *)
Definition iso_code (language : Language) : string :=
  match language with
  | ENGLISH => "en"
  | HEBREW => "he"
  end.

Definition activity (name : string) (ty : Type_.t) (lecturer : option string)
    (course_number parent_course_number : Z) (activity_id : string)
    (campus_id : Z) : activities_row :=
  {| ac_name := name; ac_activity_type := ty; ac_attendance_required := true;
     ac_lecturer_name := lecturer; ac_course_number := course_number;
     ac_parent_course_number := parent_course_number; ac_location := "";
     ac_activity_id := activity_id; ac_description := "";
     ac_current_capacity := 0; ac_max_capacity := 30;
     ac_actual_course_number := course_number; ac_campus_id := campus_id;
     ac_language_value := "en" |}.

Definition role (course_number parent_course_number : Z) (lecturer : string)
    (is_lecture_rule : bool) (campus_id : Z) : courses_lecturers_row :=
  {| cl_course_number := course_number;
     cl_parent_course_number := parent_course_number;
     cl_lecturer_name := lecturer; cl_is_lecture_rule := is_lecture_rule;
     cl_campus_id := campus_id; cl_language_value := "en" |}.

Definition tables : Tables :=
  {| campuses :=
       [ {| cp_id := 1; cp_english_name := "Main"; cp_hebrew_name := "Rashi" |};
         {| cp_id := 2; cp_english_name := "North"; cp_hebrew_name := "Tzafon" |} ];
     courses :=
       [ {| co_name := "Calculus I"; co_course_number := 1;
            co_parent_course_number := 10; co_language_value := "en" |};
         {| co_name := "Algebra"; co_course_number := 2;
            co_parent_course_number := 20; co_language_value := "en" |};
         {| co_name := "Logic"; co_course_number := 3;
            co_parent_course_number := 30; co_language_value := "en" |} ];
     courses_lecturers :=
       [ role 1 10 "Cohen" true 1; role 1 10 "Levi" true 1;
         role 1 10 "Mizrahi" false 1; role 1 10 "Cohen" true 2;
         role 2 20 "Peretz" true 1 ];
     activities :=
       [ activity "Calculus I" Type_.LECTURE (Some "Cohen") 1 10 "L1" 1;
         activity "Calculus I" Type_.LECTURE (Some "Levi") 1 10 "L2" 1;
         activity "Calculus I" Type_.PRACTICE (Some "Mizrahi") 1 10 "P1" 1;
         activity "Calculus I" Type_.LAB None 1 10 "P2" 1;
         activity "Calculus I" Type_.LECTURE (Some "Cohen") 1 10 "L1" 2;
         activity "Algebra" Type_.SEMINAR (Some "Peretz") 2 20 "S1" 1 ];
     activities_meetings :=
       [ {| am_activity_id := "L1"; am_meeting_id := 100; am_campus_id := 1;
            am_language_value := "en" |};
         {| am_activity_id := "L1"; am_meeting_id := 101; am_campus_id := 2;
            am_language_value := "en" |};
         {| am_activity_id := "P1"; am_meeting_id := 102; am_campus_id := 1;
            am_language_value := "en" |} ];
     meetings_table :=
       [ {| mt_id := 100; mt_day := 1; mt_start_time := "09:00";
            mt_end_time := "11:00" |};
         {| mt_id := 101; mt_day := 2; mt_start_time := "10:00";
            mt_end_time := "12:00" |};
         {| mt_id := 102; mt_day := 3; mt_start_time := "14:00";
            mt_end_time := "16:00" |} ] |}.

Definition calculus : Course.t := Course.__init__ "Calculus I" 1 10 None None None.
Definition algebra : Course.t := Course.__init__ "Algebra" 2 20 None None None.
Definition logic : Course.t := Course.__init__ "Logic" 3 30 None None None.

(** Two rows of [courses] as [load_courses] and [load_active_courses] build
    them. *)
Definition calculus_loaded : Course.t :=
  Database.course_of_row
    {| co_name := "Calculus I"; co_course_number := 1;
       co_parent_course_number := 10; co_language_value := "en" |}.
Definition algebra_loaded : Course.t :=
  Database.course_of_row
    {| co_name := "Algebra"; co_course_number := 2;
       co_parent_course_number := 20; co_language_value := "en" |}.

Definition any_lecturer (name : string) : CourseChoice :=
  {| choice_name := name; available_teachers_for_lecture := [];
     available_teachers_for_practice := [] |}.

Definition south : gmap Z (string * string) := {[ 3 := ("South", "Darom") ]}.

(** The saved campuses: 2 is already stored, 3 is new. *)
Definition more_campuses : gmap Z (string * string) :=
  {[ 2 := ("Upper", "Elyon"); 3 := ("South", "Darom") ]}.

Definition only_cohen : CourseChoice :=
  {| choice_name := "Calculus I"; available_teachers_for_lecture := ["Cohen"];
     available_teachers_for_practice := [] |}.

End Example.

(** * Properties *)

(** ** [Course] *)

Lemma truthy_Some_nonempty (o : option string) :
  Course.truthy o = true ↔ ∃ s, o = Some s ∧ s ≠ ""%string.
Proof.
  destruct o as [s|]; simpl.
  - rewrite negb_true_iff, bool_decide_eq_false. naive_solver.
  - naive_solver.
Qed.

(** [__eq__] compares the activity ids when both are set and non-empty, and
    the three-field key otherwise. *)
Lemma eq_by_activity_id (a b : Course.t) :
  Course.truthy (Course.activity_id a) = true →
  Course.truthy (Course.activity_id b) = true →
  (Course.__eq__ a b = true ↔ Course.activity_id a = Course.activity_id b).
Proof.
  intros Ha Hb. unfold Course.__eq__. rewrite Ha, Hb. simpl.
  apply bool_decide_eq_true.
Qed.

Lemma eq_by_key (a b : Course.t) :
  Course.truthy (Course.activity_id a) && Course.truthy (Course.activity_id b) = false →
  (Course.__eq__ a b = true ↔ Course.hash_key a = Course.hash_key b).
Proof.
  intros H. unfold Course.__eq__, Course.hash_key. rewrite H.
  rewrite !andb_true_iff, !bool_decide_eq_true.
  split; [intros [[-> ->] ->] | intros [= -> -> ->]]; done.
Qed.

(** Equal keys give equal hashes, whatever the interpreter's [hash] is. *)
Lemma hash_of_equal_keys (py_hash : string * Z * Z → Z) (a b : Course.t) :
  Course.hash_key a = Course.hash_key b →
  Course.__hash__ py_hash a = Course.__hash__ py_hash b.
Proof. unfold Course.__hash__. by intros ->. Qed.

(** A [hash] that separates two keys separates the two courses. *)
Lemma hash_of_distinct_keys (py_hash : string * Z * Z → Z) (a b : Course.t) :
  Inj (=) (=) py_hash →
  Course.hash_key a ≠ Course.hash_key b →
  Course.__hash__ py_hash a ≠ Course.__hash__ py_hash b.
Proof. unfold Course.__hash__. intros Hinj Hne Heq. by apply Hne, Hinj. Qed.

(** C3: equality and hash are not derived from the same identity.  The two
    courses below, as built from two rows of [courses], have the same
    non-empty [activity_id], so [__eq__] answers [True]; [__hash__] hashes
    their (name, course_number, parent_course_number) tuples, which differ. *)
Theorem equal_courses_with_distinct_hash_keys :
  Course.__eq__ Example.calculus_loaded Example.algebra_loaded = true
  ∧ Course.hash_key Example.calculus_loaded ≠ Course.hash_key Example.algebra_loaded.
Proof. split; [reflexivity | discriminate]. Qed.

(** C10: [add_semesters] and [set_attendance_required] leave the identity
    fields (name, course_number, parent_course_number, activity_id)
    unchanged, hence also the hash and the answers of [__eq__] on either
    side. *)
Theorem mutators_preserve_identity (c : Course.t) (s : Semester + gset Semester)
    (course_type : Type_.t) (required : bool) :
  let c1 := Course.add_semesters c s in
  let c2 := Course.set_attendance_required c course_type required in
  Course.identity c1 = Course.identity c
  ∧ Course.identity c2 = Course.identity c
  ∧ (∀ py_hash, Course.__hash__ py_hash c1 = Course.__hash__ py_hash c
                ∧ Course.__hash__ py_hash c2 = Course.__hash__ py_hash c)
  ∧ (∀ d, Course.__eq__ c1 d = Course.__eq__ c d
          ∧ Course.__eq__ d c1 = Course.__eq__ d c
          ∧ Course.__eq__ c2 d = Course.__eq__ c d
          ∧ Course.__eq__ d c2 = Course.__eq__ d c).
Proof.
  simpl. unfold Course.set_attendance_required.
  destruct (Type_.is_lecture course_type), (Type_.is_exercise course_type);
    repeat split.
Qed.

(** ** [load_campus_id] *)

Lemma load_campus_id_known tb campus_name :
  Database.known_campus tb campus_name →
  ∃ campus_id, Database.load_campus_id (Some tb) campus_name = Ok campus_id.
Proof.
  intros (r & Hr & Hname). unfold Database.load_campus_id.
  destruct (filter _ (campuses tb)) as [|r' rows] eqn:E; [|by eexists].
  assert (r ∈ filter (λ r, cp_english_name r = campus_name
                           ∨ cp_hebrew_name r = campus_name) (campuses tb)) as Hin
    by by apply list_elem_of_filter.
  rewrite E in Hin. by apply elem_of_nil in Hin.
Qed.

Lemma load_campus_id_unknown tb campus_name :
  ¬ Database.known_campus tb campus_name →
  Database.load_campus_id (Some tb) campus_name = Raise TypeError.
Proof.
  intros Hunknown. unfold Database.load_campus_id.
  destruct (filter _ (campuses tb)) as [|r rows] eqn:E; [done|].
  assert (r ∈ filter (λ r, cp_english_name r = campus_name
                           ∨ cp_hebrew_name r = campus_name) (campuses tb)) as Hin
    by (rewrite E; left).
  apply list_elem_of_filter in Hin as [Hname Hr].
  destruct Hunknown. by exists r.
Qed.

(** ** [load_courses_choices] *)

Section Builder.
Variable short_name : Language → string.
Implicit Types (data : gmap string (gset string * gset string)).

Lemma add_lecturer_dom n l b data :
  dom (Database.add_lecturer n l b data) = {[ n ]} ∪ dom data.
Proof. unfold Database.add_lecturer. by rewrite dom_insert_L. Qed.

Lemma add_lecturer_role n l b data n' l' flag :
  l' ∈ Database.role_set flag (Database.add_lecturer n l b data) n'
  ↔ l' ∈ Database.role_set flag data n' ∨ (n' = n ∧ l' = l ∧ flag = b).
Proof.
  unfold Database.role_set, Database.add_lecturer.
  destruct (decide (n = n')) as [<-|Hne].
  - rewrite lookup_insert_eq. destruct flag, b; simpl; set_solver.
  - rewrite lookup_insert_ne by done. destruct flag; naive_solver.
Qed.

Lemma collect_rows_dom n (rows : list (string * bool)) data :
  dom (foldl (λ d row, Database.add_lecturer n row.1 row.2 d) data rows)
  = (if rows is [] then ∅ else {[ n ]}) ∪ dom data.
Proof.
  revert data. induction rows as [|row rows IH]; intros data; simpl.
  - set_solver.
  - rewrite IH, add_lecturer_dom. destruct rows; set_solver.
Qed.

Lemma collect_rows_role n (rows : list (string * bool)) data n' l' flag :
  l' ∈ Database.role_set flag
         (foldl (λ d row, Database.add_lecturer n row.1 row.2 d) data rows) n'
  ↔ l' ∈ Database.role_set flag data n' ∨ (n' = n ∧ (l', flag) ∈ rows).
Proof.
  revert data. induction rows as [|[l b] rows IH]; intros data; simpl.
  - set_solver.
  - rewrite IH, add_lecturer_role, elem_of_cons. naive_solver.
Qed.

Lemma foldl_collect_dom tb cid lang cs data n :
  n ∈ dom (foldl (Database.collect_course short_name tb cid lang) data cs)
  ↔ n ∈ dom data
    ∨ ∃ c, c ∈ cs ∧ Course.name c = n
           ∧ Database.lecturer_roles short_name tb cid lang c ≠ [].
Proof.
  revert data. induction cs as [|c cs IH]; intros data; simpl.
  - set_solver.
  - rewrite IH. unfold Database.collect_course.
    rewrite collect_rows_dom. setoid_rewrite elem_of_cons.
    destruct (Database.lecturer_roles short_name tb cid lang c) eqn:E.
    + split; [intros [H|(c' & ? & ? & ?)]|intros [H|(c' & [->|?] & ? & ?)]];
        try set_solver.
    + split; [intros [H|(c' & ? & ? & ?)]|intros [H|(c' & [->|?] & ? & ?)]].
      * apply elem_of_union in H as [H|H]; [|by left].
        apply elem_of_singleton in H. right. exists c. rewrite E. naive_solver.
      * right. naive_solver.
      * left. set_solver.
      * left. set_solver.
      * right. naive_solver.
Qed.

Lemma foldl_collect_role tb cid lang cs data n l flag :
  l ∈ Database.role_set flag
        (foldl (Database.collect_course short_name tb cid lang) data cs) n
  ↔ l ∈ Database.role_set flag data n
    ∨ ∃ c, c ∈ cs ∧ Course.name c = n
           ∧ (l, flag) ∈ Database.lecturer_roles short_name tb cid lang c.
Proof.
  revert data. induction cs as [|c cs IH]; intros data; simpl.
  - set_solver.
  - rewrite IH. unfold Database.collect_course.
    rewrite collect_rows_role. setoid_rewrite elem_of_cons. naive_solver.
Qed.

(** The keys after the loop: the names of the courses with at least one row. *)
Lemma collect_courses_dom tb cid lang cs n :
  n ∈ dom (Database.collect_courses short_name tb cid lang cs)
  ↔ ∃ c, c ∈ cs ∧ Course.name c = n
         ∧ Database.lecturer_roles short_name tb cid lang c ≠ [].
Proof.
  unfold Database.collect_courses. rewrite foldl_collect_dom, dom_empty_L.
  set_solver.
Qed.

(** The sets after the loop: the lecturers of the rows with that role, over
    all the courses of that name. *)
Lemma collect_courses_role tb cid lang cs n l flag :
  l ∈ Database.role_set flag (Database.collect_courses short_name tb cid lang cs) n
  ↔ ∃ c, c ∈ cs ∧ Course.name c = n
         ∧ (l, flag) ∈ Database.lecturer_roles short_name tb cid lang c.
Proof.
  unfold Database.collect_courses. rewrite foldl_collect_role.
  unfold Database.role_set. rewrite lookup_empty.
  destruct flag; simpl; rewrite elem_of_empty; naive_solver.
Qed.

Lemma lookup_materialize data n :
  Database.materialize data !! n = Database.make_choice n <$> data !! n.
Proof.
  unfold Database.materialize. rewrite map_lookup_imap.
  by destruct (data !! n).
Qed.

Lemma materialize_is_Some data n :
  is_Some (Database.materialize data !! n) ↔ n ∈ dom data.
Proof. by rewrite lookup_materialize, fmap_is_Some, elem_of_dom. Qed.

Lemma materialize_teachers data n cc flag l :
  Database.materialize data !! n = Some cc →
  NoDup (Database.teachers flag cc)
  ∧ (l ∈ Database.teachers flag cc ↔ l ∈ Database.role_set flag data n).
Proof.
  rewrite lookup_materialize. unfold Database.role_set.
  destruct (data !! n) as [[lec pra]|]; [|done].
  intros [= <-]. destruct flag; simpl;
    (split; [apply NoDup_elements | apply elem_of_elements]).
Qed.

(** With a known campus and a non-empty list of courses, the call returns
    the materialized dictionary of the loop. *)
Lemma load_courses_choices_nonempty tb campus_name cid lang c cs :
  Database.load_campus_id (Some tb) campus_name = Ok cid →
  Database.load_courses_choices short_name (Some tb) campus_name lang (Some (c :: cs))
  = Ok (Database.materialize
          (Database.collect_courses short_name tb cid lang (c :: cs))).
Proof. intros H. unfold Database.load_courses_choices. by rewrite H. Qed.

Lemma load_courses_choices_total tb campus_name cid lang courses :
  Database.load_campus_id (Some tb) campus_name = Ok cid →
  ∃ cs, Database.load_courses_choices short_name (Some tb) campus_name lang courses
        = Ok (Database.materialize (Database.collect_courses short_name tb cid lang cs))
        ∧ (∀ c cs', courses = Some (c :: cs') → cs = c :: cs').
Proof.
  intros H. unfold Database.load_courses_choices, Database.load_active_courses.
  rewrite H. destruct courses as [[|c cs']|]; simpl; eexists; (split; [done|]);
    congruence.
Qed.

End Builder.

Section BuilderClaims.
Variable short_name : Language → string.

(** C1 (amended): for a non-empty list of courses and a known campus,
    [load_courses_choices] returns a mapping whose keys, each present once,
    are exactly the names of the input courses whose query yields at least
    one row; the key of an entry is the [CourseChoice]'s name. *)
Theorem choices_keys tb campus_name cid language c cs :
  Database.load_campus_id (Some tb) campus_name = Ok cid →
  ∃ m, Database.load_courses_choices short_name (Some tb) campus_name language
         (Some (c :: cs)) = Ok m
       ∧ NoDup (map_to_list m).*1
       ∧ (∀ n cc, m !! n = Some cc → choice_name cc = n)
       ∧ ∀ n, is_Some (m !! n)
              ↔ ∃ course, course ∈ c :: cs ∧ Course.name course = n
                          ∧ Database.lecturer_roles short_name tb cid language course ≠ [].
Proof.
  intros Hcampus. eexists. split; [by apply load_courses_choices_nonempty|].
  split_and!.
  - apply NoDup_fst_map_to_list.
  - intros n cc. rewrite lookup_materialize.
    destruct (_ !! n); [|done]. by intros [= <-].
  - intros n. by rewrite materialize_is_Some, collect_courses_dom.
Qed.

(** C7: every row fetched for an input course puts its lecturer in the list
    of its role, lecture when the flag is true and practice when it is
    false, under the course's name; the list has no duplicates, and holds
    nothing but the lecturers of such rows. *)
Theorem roles_are_classified tb campus_name cid language c cs course lecturer flag :
  Database.load_campus_id (Some tb) campus_name = Ok cid →
  course ∈ c :: cs →
  (lecturer, flag) ∈ Database.lecturer_roles short_name tb cid language course →
  ∃ m cc, Database.load_courses_choices short_name (Some tb) campus_name language
            (Some (c :: cs)) = Ok m
          ∧ m !! Course.name course = Some cc
          ∧ lecturer ∈ Database.teachers flag cc
          ∧ NoDup (Database.teachers true cc)
          ∧ NoDup (Database.teachers false cc)
          ∧ ∀ l b, l ∈ Database.teachers b cc
                   ↔ ∃ c', c' ∈ c :: cs ∧ Course.name c' = Course.name course
                           ∧ (l, b) ∈ Database.lecturer_roles short_name tb cid language c'.
Proof.
  intros Hcampus Hcourse Hrow.
  set (data := Database.collect_courses short_name tb cid language (c :: cs)).
  assert (is_Some (Database.materialize data !! Course.name course)) as [cc Hcc].
  { apply materialize_is_Some, collect_courses_dom. exists course.
    split_and!; [done..|]. intros Hnil. rewrite Hnil in Hrow.
    by apply elem_of_nil in Hrow. }
  exists (Database.materialize data), cc.
  split; [by apply load_courses_choices_nonempty|]. split; [done|].
  assert (∀ l b, l ∈ Database.teachers b cc
                 ↔ ∃ c', c' ∈ c :: cs ∧ Course.name c' = Course.name course
                         ∧ (l, b) ∈ Database.lecturer_roles short_name tb cid language c')
    as Hspec.
  { intros l b. rewrite <-collect_courses_role.
    by apply (materialize_teachers data (Course.name course) cc b l). }
  split_and!.
  - apply Hspec. by exists course.
  - by apply (materialize_teachers data (Course.name course) cc true lecturer).
  - by apply (materialize_teachers data (Course.name course) cc false lecturer).
  - done.
Qed.

(** C9: with a known campus, two orders of the same courses give mappings
    with the same keys and, under each key, lists with the same members for
    each role.  Taking the same order twice is the case of two runs on the
    same input: the method only reads the tables. *)
Theorem choices_independent_of_order tb campus_name cid language cs1 cs2 :
  Database.load_campus_id (Some tb) campus_name = Ok cid →
  cs1 ≡ₚ cs2 →
  ∃ m1 m2, Database.load_courses_choices short_name (Some tb) campus_name language
             (Some cs1) = Ok m1
           ∧ Database.load_courses_choices short_name (Some tb) campus_name language
               (Some cs2) = Ok m2
           ∧ ∀ n, (is_Some (m1 !! n) ↔ is_Some (m2 !! n))
                  ∧ ∀ cc1 cc2, m1 !! n = Some cc1 → m2 !! n = Some cc2 →
                      ∀ flag l, l ∈ Database.teachers flag cc1
                                ↔ l ∈ Database.teachers flag cc2.
Proof.
  intros Hcampus Hperm.
  destruct cs1 as [|c1 cs1'].
  { apply Permutation_nil_l in Hperm as <-.
    destruct (load_courses_choices_total short_name tb campus_name cid language
                (Some []) Hcampus) as (cs & -> & _).
    eexists _, _. split_and!; [done..|]. intros n. split; [done|].
    intros cc1 cc2 H1 H2. rewrite H1 in H2. by injection H2 as ->. }
  destruct cs2 as [|c2 cs2'].
  { by apply Permutation_nil_r in Hperm. }
  rewrite !(load_courses_choices_nonempty short_name tb campus_name cid) by done.
  eexists _, _. split_and!; [done..|]. intros n. split.
  - rewrite !materialize_is_Some, !collect_courses_dom.
    by setoid_rewrite Hperm.
  - intros cc1 cc2 H1 H2 flag l.
    destruct (materialize_teachers _ n cc1 flag l H1) as [_ ->].
    destruct (materialize_teachers _ n cc2 flag l H2) as [_ ->].
    rewrite !collect_courses_role. by setoid_rewrite Hperm.
Qed.

End BuilderClaims.

(** C1 (as stated) fails: "Logic" has no row in [courses_lecturers], and
    the mapping returned for the courses Calculus I and Logic has no key
    "Logic". *)
Lemma course_without_roles_is_omitted :
  Example.logic ∈ [Example.calculus; Example.logic]
  ∧ ∃ m, Database.load_courses_choices Example.iso_code (Some Example.tables)
           "Main" ENGLISH (Some [Example.calculus; Example.logic]) = Ok m
         ∧ m !! Course.name Example.logic = None.
Proof.
  split; [set_solver|]. eexists. split; [reflexivity|].
  vm_compute. reflexivity.
Qed.

Lemma choices_keys_witness :
  Database.load_campus_id (Some Example.tables) "Main" = Ok 1
  ∧ ∃ m, Database.load_courses_choices Example.iso_code (Some Example.tables)
           "Main" ENGLISH (Some [Example.calculus; Example.logic]) = Ok m
         ∧ NoDup (map_to_list m).*1
         ∧ (∀ n cc, m !! n = Some cc → choice_name cc = n)
         ∧ ∀ n, is_Some (m !! n)
                ↔ ∃ course, course ∈ [Example.calculus; Example.logic]
                            ∧ Course.name course = n
                            ∧ Database.lecturer_roles Example.iso_code Example.tables
                                1 ENGLISH course ≠ [].
Proof.
  split; [reflexivity|].
  apply (choices_keys Example.iso_code Example.tables "Main" 1 ENGLISH).
  reflexivity.
Defined.

Lemma roles_are_classified_witness :
  ∃ m cc, Database.load_courses_choices Example.iso_code (Some Example.tables)
            "Main" ENGLISH (Some [Example.calculus; Example.logic]) = Ok m
          ∧ m !! "Calculus I"%string = Some cc
          ∧ "Cohen"%string ∈ Database.teachers true cc
          ∧ NoDup (Database.teachers true cc)
          ∧ NoDup (Database.teachers false cc)
          ∧ ∀ l b, l ∈ Database.teachers b cc
                   ↔ ∃ c', c' ∈ [Example.calculus; Example.logic]
                           ∧ Course.name c' = "Calculus I"%string
                           ∧ (l, b) ∈ Database.lecturer_roles Example.iso_code
                                        Example.tables 1 ENGLISH c'.
Proof.
  apply (roles_are_classified Example.iso_code Example.tables "Main" 1 ENGLISH
           Example.calculus [Example.logic] Example.calculus "Cohen"%string true).
  - reflexivity.
  - left.
  - vm_compute. left.
Defined.

Lemma choices_independent_of_order_witness :
  ∃ m1 m2, Database.load_courses_choices Example.iso_code (Some Example.tables)
             "Main" ENGLISH (Some [Example.calculus; Example.algebra]) = Ok m1
           ∧ Database.load_courses_choices Example.iso_code (Some Example.tables)
               "Main" ENGLISH (Some [Example.algebra; Example.calculus]) = Ok m2
           ∧ ∀ n, (is_Some (m1 !! n) ↔ is_Some (m2 !! n))
                  ∧ ∀ cc1 cc2, m1 !! n = Some cc1 → m2 !! n = Some cc2 →
                      ∀ flag l, l ∈ Database.teachers flag cc1
                                ↔ l ∈ Database.teachers flag cc2.
Proof.
  apply (choices_independent_of_order Example.iso_code Example.tables "Main" 1
           ENGLISH [Example.calculus; Example.algebra]
           [Example.algebra; Example.calculus]).
  - reflexivity.
  - apply perm_swap.
Defined.

(** ** [load_activities_by_courses_choices] *)

Section Retriever.
Variable short_name : Language → string.
Implicit Types (tb : Tables) (choices : gmap string CourseChoice).

Lemma activity_selected_scope n cc cid lang r :
  Database.activity_selected short_name n cc cid lang r = true →
  ac_name r = n ∧ ac_language_value r = short_name lang ∧ ac_campus_id r = cid.
Proof.
  unfold Database.activity_selected. intros H.
  repeat (apply andb_prop in H as [H ?]).
  repeat match goal with
         | H : bool_decide _ = true |- _ => apply bool_decide_eq_true in H
         end.
  done.
Qed.

(** The two kind groups are disjoint, so a row of one group is selected by
    that group's lecturer condition alone. *)
Lemma activity_selected_lecture n cc cid lang r :
  ac_activity_type r ∈ Database.lecture_types →
  Database.activity_selected short_name n cc cid lang r
  = bool_decide (ac_name r = n)
    && bool_decide (ac_language_value r = short_name lang)
    && bool_decide (ac_campus_id r = cid)
    && Database.lecturer_condition (available_teachers_for_lecture cc)
         (ac_lecturer_name r).
Proof.
  unfold Database.activity_selected. intros Hty.
  rewrite (bool_decide_eq_true_2 _ Hty).
  rewrite (bool_decide_eq_false_2 (ac_activity_type r ∈ Database.practice_types)).
  - by rewrite orb_false_r.
  - revert Hty. unfold Database.lecture_types, Database.practice_types.
    rewrite !elem_of_cons, !elem_of_nil. destruct (ac_activity_type r); naive_solver.
Qed.

Lemma activity_selected_practice n cc cid lang r :
  ac_activity_type r ∈ Database.practice_types →
  Database.activity_selected short_name n cc cid lang r
  = bool_decide (ac_name r = n)
    && bool_decide (ac_language_value r = short_name lang)
    && bool_decide (ac_campus_id r = cid)
    && Database.lecturer_condition (available_teachers_for_practice cc)
         (ac_lecturer_name r).
Proof.
  unfold Database.activity_selected. intros Hty.
  rewrite (bool_decide_eq_true_2 _ Hty).
  rewrite (bool_decide_eq_false_2 (ac_activity_type r ∈ Database.lecture_types)).
  - done.
  - revert Hty. unfold Database.lecture_types, Database.practice_types.
    rewrite !elem_of_cons, !elem_of_nil. destruct (ac_activity_type r); naive_solver.
Qed.

Lemma lecturer_condition_any (lecturer : option string) :
  Database.lecturer_condition [] lecturer = true ↔ is_Some lecturer.
Proof. simpl. apply bool_decide_eq_true. Qed.

Lemma lecturer_condition_chosen (teachers : list string) (lecturer : option string) :
  teachers ≠ [] →
  (Database.lecturer_condition teachers lecturer = true
   ↔ ∃ l, lecturer = Some l ∧ l ∈ teachers).
Proof.
  intros Hne. destruct teachers as [|t ts]; [done|]. simpl.
  destruct lecturer as [l|].
  - rewrite bool_decide_eq_true. naive_solver.
  - naive_solver.
Qed.

Lemma elem_of_activities_of_choice tb cid lang item a :
  a ∈ Database.activities_of_choice short_name tb cid lang item
  ↔ ∃ r, r ∈ activities tb
         ∧ Database.activity_selected short_name item.1 item.2 cid lang r = true
         ∧ a = Database.activity_of_row short_name tb cid lang r.
Proof.
  unfold Database.activities_of_choice.
  rewrite list_elem_of_fmap. setoid_rewrite list_elem_of_filter. naive_solver.
Qed.

(** The returned list holds the activities of the rows selected under some
    entry of the dictionary. *)
Lemma elem_of_retrieved tb cid lang choices a :
  a ∈ (map_to_list choices ≫= Database.activities_of_choice short_name tb cid lang)
  ↔ ∃ n cc r, choices !! n = Some cc ∧ r ∈ activities tb
              ∧ Database.activity_selected short_name n cc cid lang r = true
              ∧ a = Database.activity_of_row short_name tb cid lang r.
Proof.
  rewrite list_elem_of_bind. split.
  - intros ([n cc] & Ha & Hitem). apply elem_of_map_to_list in Hitem.
    apply elem_of_activities_of_choice in Ha as (r & ? & ? & ?). by exists n, cc, r.
  - intros (n & cc & r & Hn & ? & ? & ?). exists (n, cc). split.
    + apply elem_of_activities_of_choice. by exists r.
    + by apply elem_of_map_to_list.
Qed.

Lemma elem_of_load_meetings tb aid cid lang m :
  m ∈ Database.load_meetings short_name tb aid cid lang
  ↔ ∃ row link, row ∈ meetings_table tb ∧ link ∈ activities_meetings tb
                ∧ mt_id row = am_meeting_id link
                ∧ am_activity_id link = aid
                ∧ am_campus_id link = cid
                ∧ am_language_value link = short_name lang
                ∧ m = Database.meeting_of_row row.
Proof.
  unfold Database.load_meetings. rewrite list_elem_of_fmap. split.
  - intros (row & -> & Hrow).
    apply list_elem_of_bind in Hrow as (row' & Hrow & Hrow').
    apply list_elem_of_bind in Hrow as (link & Hin & Hlink).
    case_decide as Hc; [|by apply elem_of_nil in Hin].
    apply list_elem_of_singleton in Hin as ->. exists row', link. naive_solver.
  - intros (row & link & ? & ? & ? & ? & ? & ? & ->). exists row. split; [done|].
    apply list_elem_of_bind. exists row. split; [|done].
    apply list_elem_of_bind. exists link. split; [|done].
    rewrite decide_True by done. by apply list_elem_of_singleton.
Qed.

Lemma primary_key_inj tb r1 r2 :
  activities_primary_key tb → r1 ∈ activities tb → r2 ∈ activities tb →
  activities_key r1 = activities_key r2 → r1 = r2.
Proof.
  unfold activities_primary_key. induction (activities tb) as [|r rows IH]; simpl.
  - intros _ H. by apply elem_of_nil in H.
  - rewrite NoDup_cons, !elem_of_cons, list_elem_of_fmap.
    intros [Hnotin Hnd] [->|H1] [->|H2] Hkey; auto.
    + destruct Hnotin. by exists r2.
    + destruct Hnotin. by exists r1.
Qed.

Lemma NoDup_selected_ids tb cid lang item :
  activities_primary_key tb →
  NoDup (activity_id <$> Database.activities_of_choice short_name tb cid lang item).
Proof.
  unfold activities_primary_key, Database.activities_of_choice.
  rewrite <-list_fmap_compose.
  induction (activities tb) as [|r rows IH]; simpl; [constructor|].
  rewrite NoDup_cons. intros [Hnotin Hnd].
  rewrite filter_cons. case_decide as Hsel; [|by apply IH].
  rewrite fmap_cons. apply NoDup_cons. split; [|by apply IH].
  rewrite list_elem_of_fmap. intros (r' & Hid & Hr').
  apply list_elem_of_filter in Hr' as [Hsel' Hr'].
  apply activity_selected_scope in Hsel as (_ & Hl & Hc).
  apply activity_selected_scope in Hsel' as (_ & Hl' & Hc').
  apply Hnotin, list_elem_of_fmap. exists r'. split; [|done].
  unfold activities_key. simpl in Hid. congruence.
Qed.

Lemma NoDup_retrieved_ids tb cid lang (items : list (string * CourseChoice)) :
  activities_primary_key tb → NoDup items.*1 →
  NoDup (activity_id <$> (items ≫= Database.activities_of_choice short_name tb cid lang)).
Proof.
  intros Hpk. induction items as [|item items IH]; simpl; [constructor|].
  rewrite NoDup_cons. intros [Hfresh Hnd].
  rewrite fmap_app. apply NoDup_app. split_and!.
  - by apply NoDup_selected_ids.
  - intros x Hx1 Hx2.
    apply list_elem_of_fmap in Hx1 as (a1 & -> & Ha1).
    apply list_elem_of_fmap in Hx2 as (a2 & Hid & Ha2).
    apply elem_of_activities_of_choice in Ha1 as (r1 & Hr1 & Hs1 & ->).
    apply list_elem_of_bind in Ha2 as (item' & Ha2 & Hitem').
    apply elem_of_activities_of_choice in Ha2 as (r2 & Hr2 & Hs2 & ->).
    apply activity_selected_scope in Hs1 as (Hn1 & Hl1 & Hc1).
    apply activity_selected_scope in Hs2 as (Hn2 & Hl2 & Hc2).
    assert (r1 = r2) as ->.
    { apply (primary_key_inj tb); [done..|].
      unfold activities_key. simpl in Hid. congruence. }
    apply Hfresh, list_elem_of_fmap. exists item'. split; [congruence|done].
  - by apply IH.
Qed.

(** With a known campus the call returns the concatenation over the
    entries; without a database file it returns the empty list. *)
Lemma load_activities_known tb choices campus_name cid lang :
  Database.load_campus_id (Some tb) campus_name = Ok cid →
  Database.load_activities_by_courses_choices short_name (Some tb) choices
    campus_name lang
  = Ok (map_to_list choices ≫= Database.activities_of_choice short_name tb cid lang).
Proof. intros H. unfold Database.load_activities_by_courses_choices. by rewrite H. Qed.

Lemma load_activities_Ok_inv store choices campus_name lang acts :
  Database.load_activities_by_courses_choices short_name store choices
    campus_name lang = Ok acts →
  (store = None ∧ acts = [])
  ∨ ∃ tb cid, store = Some tb
              ∧ Database.load_campus_id (Some tb) campus_name = Ok cid
              ∧ acts = (map_to_list choices
                          ≫= Database.activities_of_choice short_name tb cid lang).
Proof.
  unfold Database.load_activities_by_courses_choices.
  destruct store as [tb|]; [|intros [= <-]; by left].
  destruct (Database.load_campus_id (Some tb) campus_name) as [cid|e] eqn:E;
    simpl; [|done].
  intros [= <-]. right. by exists tb, cid.
Qed.

End Retriever.

Section RetrieverClaims.
Variable short_name : Language → string.
Implicit Types (tb : Tables) (choices : gmap string CourseChoice).

(** C2 (amended): when the database file exists and no row of [campuses]
    carries the name, [load_campus_id] raises (the [TypeError] of
    subscripting the missing row), and so does every query method that
    resolves the campus: no value is returned.  Without a database file
    [load_activities_by_courses_choices] returns the empty list before it
    resolves the campus. *)
Theorem unknown_campus_is_fatal tb campus_name :
  ¬ Database.known_campus tb campus_name →
  Database.load_campus_id (Some tb) campus_name = Raise TypeError
  ∧ (∀ choices language,
       Database.load_activities_by_courses_choices short_name (Some tb) choices
         campus_name language = Raise TypeError)
  ∧ (∀ language courses,
       Database.load_courses_choices short_name (Some tb) campus_name language
         courses = Raise TypeError)
  ∧ (∀ language,
       Database.load_active_courses short_name (Some tb) campus_name language
       = Raise TypeError)
  ∧ (∀ choices language,
       Database.load_activities_by_courses_choices short_name None choices
         campus_name language = Ok []).
Proof.
  intros Hunknown. pose proof (load_campus_id_unknown tb campus_name Hunknown) as H.
  split_and!; [done|intros ??..|intros ?|done].
  - unfold Database.load_activities_by_courses_choices. by rewrite H.
  - unfold Database.load_courses_choices. by rewrite H.
  - unfold Database.load_active_courses. by rewrite H.
Qed.

(** C4 (amended): under an entry whose two lists are empty, a row of
    [activities] with the entry's name in the scope of the call is returned
    exactly when its kind is in one of the two groups (LECTURE, SEMINAR,
    PRACTICE, LAB) and its lecturer is not NULL, whoever the lecturer is. *)
Theorem empty_choice_selects_every_staffed_activity tb campus_name cid language
    choices n cc :
  Database.load_campus_id (Some tb) campus_name = Ok cid →
  choices !! n = Some cc →
  available_teachers_for_lecture cc = [] →
  available_teachers_for_practice cc = [] →
  ∃ acts, Database.load_activities_by_courses_choices short_name (Some tb) choices
            campus_name language = Ok acts
          ∧ ∀ r, r ∈ activities tb → ac_name r = n → ac_campus_id r = cid →
                 ac_language_value r = short_name language →
                 (Database.activity_of_row short_name tb cid language r ∈ acts
                  ↔ is_Some (ac_lecturer_name r)
                    ∧ (ac_activity_type r ∈ Database.lecture_types
                       ∨ ac_activity_type r ∈ Database.practice_types)).
Proof.
  intros Hcampus Hcc Hlec Hpra. eexists. split; [by apply load_activities_known|].
  intros r Hr Hname Hcid Hlang.
  assert (Database.activity_selected short_name n cc cid language r = true
          ↔ is_Some (ac_lecturer_name r)
            ∧ (ac_activity_type r ∈ Database.lecture_types
               ∨ ac_activity_type r ∈ Database.practice_types)) as Hsel.
  { unfold Database.activity_selected. rewrite Hlec, Hpra.
    rewrite !bool_decide_eq_true_2 by done. simpl.
    rewrite orb_true_iff, !andb_true_iff, !bool_decide_eq_true. naive_solver. }
  rewrite elem_of_retrieved, <-Hsel. split.
  - intros (n' & cc' & r' & Hcc' & Hr' & Hsel' & Heq).
    pose proof (activity_selected_scope _ _ _ _ _ _ Hsel') as (Hn' & _ & _).
    assert (n' = n) as ->.
    { pose proof (f_equal name Heq) as Hnm. simpl in Hnm. congruence. }
    assert (cc' = cc) as -> by congruence.
    apply (f_equal (λ a, (type a, lecturer_name a))) in Heq. simpl in Heq.
    injection Heq as Hty Hlect.
    unfold Database.activity_selected in Hsel' |- *.
    apply andb_prop in Hsel' as [_ Hsel'].
    rewrite !bool_decide_eq_true_2 by done. simpl. by rewrite Hty, Hlect.
  - intros Hs. by exists n, cc, r.
Qed.

(** C5: under an entry whose lecture list is not empty, every returned
    lecture-like activity of that name has its lecturer in the list, and the
    returned practice-like activities of that name are the same for every
    other lecture list, the practice list being kept. *)
Theorem lecture_restriction tb campus_name cid language choices n cc :
  Database.load_campus_id (Some tb) campus_name = Ok cid →
  choices !! n = Some cc →
  available_teachers_for_lecture cc ≠ [] →
  ∃ acts, Database.load_activities_by_courses_choices short_name (Some tb) choices
            campus_name language = Ok acts
          ∧ (∀ a, a ∈ acts → name a = n → type a ∈ Database.lecture_types →
                  ∃ l, lecturer_name a = Some l
                       ∧ l ∈ available_teachers_for_lecture cc)
          ∧ ∀ cc', available_teachers_for_practice cc'
                   = available_teachers_for_practice cc →
              ∃ acts', Database.load_activities_by_courses_choices short_name
                         (Some tb) (<[n := cc']> choices) campus_name language
                       = Ok acts'
                       ∧ ∀ a, name a = n → type a ∈ Database.practice_types →
                              (a ∈ acts ↔ a ∈ acts').
Proof.
  intros Hcampus Hcc Hlec. eexists. split; [by apply load_activities_known|]. split.
  - intros a Ha Hname Hty.
    apply elem_of_retrieved in Ha as (n' & cc' & r & Hcc' & Hr & Hsel & ->).
    pose proof (activity_selected_scope _ _ _ _ _ _ Hsel) as (Hn' & _ & _).
    simpl in Hname, Hty. assert (n' = n) as -> by congruence.
    assert (cc' = cc) as -> by congruence.
    rewrite activity_selected_lecture in Hsel by done.
    apply andb_prop in Hsel as [_ Hsel]. simpl.
    by apply lecturer_condition_chosen.
  - intros cc' Hpra. eexists. split; [by apply load_activities_known|].
    intros a Hname Hty. rewrite !elem_of_retrieved. split.
    + intros (n1 & cc1 & r & Hcc1 & Hr & Hsel & ->).
      pose proof (activity_selected_scope _ _ _ _ _ _ Hsel) as (Hn1 & _ & _).
      simpl in Hname, Hty. assert (n1 = n) as -> by congruence.
      assert (cc1 = cc) as -> by congruence.
      exists n, cc', r. rewrite lookup_insert_eq. split_and!; [done..| |done].
      rewrite activity_selected_practice in Hsel |- * by done. by rewrite Hpra.
    + intros (n1 & cc1 & r & Hcc1 & Hr & Hsel & ->).
      pose proof (activity_selected_scope _ _ _ _ _ _ Hsel) as (Hn1 & _ & _).
      simpl in Hname, Hty. assert (n1 = n) as -> by congruence.
      rewrite lookup_insert_eq in Hcc1. injection Hcc1 as <-.
      exists n, cc, r. split_and!; [done..| |done].
      rewrite activity_selected_practice in Hsel |- * by done. by rewrite <-Hpra.
Qed.

(** C6: when the rows of [activities] respect the table's primary key, the
    returned list has no two entries with the same activity id, hence none
    with the same (activity_id, campus, language), all entries being of the
    scope of the call. *)
Theorem retrieved_activities_are_distinct store choices campus_name language acts :
  (∀ tb, store = Some tb → activities_primary_key tb) →
  Database.load_activities_by_courses_choices short_name store choices
    campus_name language = Ok acts →
  NoDup (activity_id <$> acts)
  ∧ NoDup ((λ a, (activity_id a, campus_name, language)) <$> acts).
Proof.
  intros Hpk Hload.
  assert (NoDup (activity_id <$> acts)) as Hids.
  { apply load_activities_Ok_inv in Hload as [[-> ->]|(tb & cid & -> & _ & ->)].
    - constructor.
    - apply NoDup_retrieved_ids; [by apply Hpk | apply NoDup_fst_map_to_list]. }
  split; [done|].
  rewrite (list_fmap_compose activity_id (λ i, (i, campus_name, language))).
  apply NoDup_fmap_2; [|done]. by intros i j [= ->].
Qed.

(** C8: the meetings attached to a returned activity are exactly the rows
    of [meetings] linked in [activities_meetings] to the activity's id under
    the campus and the language of the call; a link under another campus or
    language attaches nothing. *)
Theorem attached_meetings tb campus_name cid language choices :
  Database.load_campus_id (Some tb) campus_name = Ok cid →
  ∃ acts, Database.load_activities_by_courses_choices short_name (Some tb) choices
            campus_name language = Ok acts
          ∧ ∀ a m, a ∈ acts →
              (m ∈ meetings a
               ↔ ∃ row link, row ∈ meetings_table tb
                             ∧ link ∈ activities_meetings tb
                             ∧ mt_id row = am_meeting_id link
                             ∧ am_activity_id link = activity_id a
                             ∧ am_campus_id link = cid
                             ∧ am_language_value link = short_name language
                             ∧ m = Database.meeting_of_row row).
Proof.
  intros Hcampus. eexists. split; [by apply load_activities_known|].
  intros a m Ha.
  apply elem_of_retrieved in Ha as (n & cc & r & _ & _ & _ & ->). simpl.
  apply elem_of_load_meetings.
Qed.

End RetrieverClaims.

(** ** The claims on the example database *)

Lemma example_primary_key : activities_primary_key Example.tables.
Proof.
  unfold activities_primary_key.
  refine (bool_decide_unpack (NoDup _) _). vm_compute. exact I.
Defined.

Lemma example_unknown_campus :
  ¬ Database.known_campus Example.tables "South".
Proof.
  intros (r & Hr & Hname). simpl in Hr.
  repeat (apply elem_of_cons in Hr as [->|Hr]);
    [by destruct Hname..|by apply elem_of_nil in Hr].
Defined.

(** C2 (as stated) fails: without a database file no campus name resolves,
    and [load_activities_by_courses_choices] returns the empty list instead
    of raising. *)
Lemma retrieval_without_database_file :
  raises (Database.load_campus_id None "Main")
  ∧ Database.load_activities_by_courses_choices Example.iso_code None
      {[ "Calculus I"%string := Example.only_cohen ]} "Main" ENGLISH = Ok []
  ∧ ¬ raises (Database.load_activities_by_courses_choices Example.iso_code None
                {[ "Calculus I"%string := Example.only_cohen ]} "Main" ENGLISH).
Proof.
  split_and!; [by eexists | done | by intros [e He]].
Qed.

Lemma unknown_campus_is_fatal_witness :
  ¬ Database.known_campus Example.tables "South"
  ∧ Database.load_campus_id (Some Example.tables) "South" = Raise TypeError
  ∧ (∀ choices language,
       Database.load_activities_by_courses_choices Example.iso_code
         (Some Example.tables) choices "South" language = Raise TypeError)
  ∧ (∀ language courses,
       Database.load_courses_choices Example.iso_code (Some Example.tables)
         "South" language courses = Raise TypeError)
  ∧ (∀ language,
       Database.load_active_courses Example.iso_code (Some Example.tables)
         "South" language = Raise TypeError)
  ∧ (∀ choices language,
       Database.load_activities_by_courses_choices Example.iso_code None choices
         "South" language = Ok []).
Proof.
  split; [exact example_unknown_campus|].
  apply (unknown_campus_is_fatal Example.iso_code Example.tables "South").
  exact example_unknown_campus.
Defined.

(** C4 (as stated) fails: the lab "P2" of Calculus I on the Main campus has
    no lecturer, and the entry with two empty lists does not return it. *)
Lemma activity_without_lecturer_is_not_returned :
  let r := Example.activity "Calculus I" Type_.LAB None 1 10 "P2" 1 in
  r ∈ activities Example.tables
  ∧ ac_name r = "Calculus I"%string
  ∧ Database.load_campus_id (Some Example.tables) "Main" = Ok (ac_campus_id r)
  ∧ ac_language_value r = Example.iso_code ENGLISH
  ∧ ∃ acts, Database.load_activities_by_courses_choices Example.iso_code
              (Some Example.tables)
              {[ "Calculus I"%string := Example.any_lecturer "Calculus I" ]}
              "Main" ENGLISH = Ok acts
            ∧ activity_id <$> acts = ["L1"; "L2"; "P1"]%string.
Proof.
  simpl. split_and!; [|done..|].
  - do 3 right. left.
  - eexists. split; [reflexivity|]. vm_compute. reflexivity.
Qed.

Lemma empty_choice_selects_every_staffed_activity_witness :
  ∃ acts, Database.load_activities_by_courses_choices Example.iso_code
            (Some Example.tables)
            {[ "Calculus I"%string := Example.any_lecturer "Calculus I" ]}
            "Main" ENGLISH = Ok acts
          ∧ ∀ r, r ∈ activities Example.tables → ac_name r = "Calculus I"%string →
                 ac_campus_id r = 1 → ac_language_value r = Example.iso_code ENGLISH →
                 (Database.activity_of_row Example.iso_code Example.tables 1 ENGLISH r
                    ∈ acts
                  ↔ is_Some (ac_lecturer_name r)
                    ∧ (ac_activity_type r ∈ Database.lecture_types
                       ∨ ac_activity_type r ∈ Database.practice_types)).
Proof.
  apply (empty_choice_selects_every_staffed_activity Example.iso_code
           Example.tables "Main" 1 ENGLISH
           {[ "Calculus I"%string := Example.any_lecturer "Calculus I" ]}
           "Calculus I"%string (Example.any_lecturer "Calculus I")).
  - reflexivity.
  - apply lookup_singleton_eq.
  - reflexivity.
  - reflexivity.
Defined.

(** The example of the spec's section 8: lecture lecturers restricted to
    Cohen and no practice lecturer chosen return Cohen's lecture and the
    practice sections that have a lecturer. *)
Example only_cohen_on_main :
  ∃ acts, Database.load_activities_by_courses_choices Example.iso_code
            (Some Example.tables) {[ "Calculus I"%string := Example.only_cohen ]}
            "Main" ENGLISH = Ok acts
          ∧ activity_id <$> acts = ["L1"; "P1"]%string
          ∧ (λ a, meeting_id <$> meetings a) <$> acts = [[100]; [102]].
Proof. eexists. split; [reflexivity|]. split; vm_compute; reflexivity. Qed.

Lemma lecture_restriction_witness :
  ∃ acts, Database.load_activities_by_courses_choices Example.iso_code
            (Some Example.tables) {[ "Calculus I"%string := Example.only_cohen ]}
            "Main" ENGLISH = Ok acts
          ∧ (∀ a, a ∈ acts → name a = "Calculus I"%string →
                  type a ∈ Database.lecture_types →
                  ∃ l, lecturer_name a = Some l
                       ∧ l ∈ available_teachers_for_lecture Example.only_cohen)
          ∧ ∀ cc', available_teachers_for_practice cc'
                   = available_teachers_for_practice Example.only_cohen →
              ∃ acts', Database.load_activities_by_courses_choices Example.iso_code
                         (Some Example.tables)
                         (<["Calculus I"%string := cc']>
                            {[ "Calculus I"%string := Example.only_cohen ]})
                         "Main" ENGLISH = Ok acts'
                       ∧ ∀ a, name a = "Calculus I"%string →
                              type a ∈ Database.practice_types →
                              (a ∈ acts ↔ a ∈ acts').
Proof.
  apply (lecture_restriction Example.iso_code Example.tables "Main" 1 ENGLISH
           {[ "Calculus I"%string := Example.only_cohen ]}
           "Calculus I"%string Example.only_cohen).
  - reflexivity.
  - apply lookup_singleton_eq.
  - discriminate.
Defined.

Lemma retrieved_activities_are_distinct_witness :
  ∃ acts, Database.load_activities_by_courses_choices Example.iso_code
            (Some Example.tables)
            {[ "Calculus I"%string := Example.any_lecturer "Calculus I";
               "Algebra"%string := Example.any_lecturer "Algebra" ]}
            "Main" ENGLISH = Ok acts
          ∧ length acts = 4%nat
          ∧ NoDup (activity_id <$> acts)
          ∧ NoDup ((λ a, (activity_id a, "Main"%string, ENGLISH)) <$> acts).
Proof.
  eexists. split; [reflexivity|]. split; [vm_compute; reflexivity|].
  apply (retrieved_activities_are_distinct Example.iso_code (Some Example.tables)
           {[ "Calculus I"%string := Example.any_lecturer "Calculus I";
              "Algebra"%string := Example.any_lecturer "Algebra" ]}
           "Main" ENGLISH).
  - intros tb [= <-]. exact example_primary_key.
  - reflexivity.
Defined.

Lemma attached_meetings_witness :
  ∃ acts, Database.load_activities_by_courses_choices Example.iso_code
            (Some Example.tables) {[ "Calculus I"%string := Example.only_cohen ]}
            "Main" ENGLISH = Ok acts
          ∧ ∀ a m, a ∈ acts →
              (m ∈ meetings a
               ↔ ∃ row link, row ∈ meetings_table Example.tables
                             ∧ link ∈ activities_meetings Example.tables
                             ∧ mt_id row = am_meeting_id link
                             ∧ am_activity_id link = activity_id a
                             ∧ am_campus_id link = 1
                             ∧ am_language_value link = Example.iso_code ENGLISH
                             ∧ m = Database.meeting_of_row row).
Proof.
  apply (attached_meetings Example.iso_code Example.tables "Main" 1 ENGLISH
           {[ "Calculus I"%string := Example.only_cohen ]}).
  reflexivity.
Defined.

(** * Further properties *)

(** ** [Course]: equality, hash and the mutators *)

(** X1: [__eq__] is reflexive and symmetric. *)
Theorem eq_reflexive_symmetric (a b : Course.t) :
  Course.__eq__ a a = true ∧ Course.__eq__ a b = Course.__eq__ b a.
Proof.
  unfold Course.__eq__. split.
  - destruct (_ && _); rewrite ?andb_true_iff, !bool_decide_eq_true; done.
  - rewrite (andb_comm (Course.truthy (Course.activity_id b))).
    destruct (_ && _); repeat f_equal; apply bool_decide_ext; naive_solver.
Qed.

(** X2: [__eq__] is not transitive.  A course without an activity id equals
    every course with its key, and two courses with the same non-empty
    activity id are equal whatever their keys are. *)
Theorem eq_not_transitive (a b c : Course.t) :
  Course.truthy (Course.activity_id a) = true →
  Course.activity_id c = Course.activity_id a →
  Course.activity_id b = None →
  Course.hash_key b = Course.hash_key a →
  Course.hash_key c ≠ Course.hash_key a →
  Course.__eq__ b a = true ∧ Course.__eq__ a c = true ∧ Course.__eq__ b c = false.
Proof.
  intros Ha Hc Hb Hba Hca. split_and!.
  - apply eq_by_key; [by rewrite Hb|done].
  - apply eq_by_activity_id; [done|by rewrite Hc|done].
  - apply not_true_is_false. intros Heq.
    apply eq_by_key in Heq; [|by rewrite Hb]. congruence.
Qed.

Lemma eq_not_transitive_witness :
  Course.__eq__ Example.calculus Example.calculus_loaded = true
  ∧ Course.__eq__ Example.calculus_loaded Example.algebra_loaded = true
  ∧ Course.__eq__ Example.calculus Example.algebra_loaded = false.
Proof.
  apply (eq_not_transitive Example.calculus_loaded Example.calculus
           Example.algebra_loaded); [reflexivity..|discriminate].
Defined.

(** X3: when at least one of two courses has no activity id, equal courses
    have equal hashes. *)
Theorem equal_courses_hash_alike (py_hash : string * Z * Z → Z) (a b : Course.t) :
  Course.truthy (Course.activity_id a) && Course.truthy (Course.activity_id b) = false →
  Course.__eq__ a b = true →
  Course.__hash__ py_hash a = Course.__hash__ py_hash b.
Proof. intros Hid Heq. by apply hash_of_equal_keys, eq_by_key. Qed.

Lemma equal_courses_hash_alike_witness :
  Course.__hash__ (λ k, k.1.2) Example.calculus
  = Course.__hash__ (λ k, k.1.2) Example.calculus_loaded.
Proof.
  apply (equal_courses_hash_alike (λ k, k.1.2) Example.calculus
           Example.calculus_loaded); reflexivity.
Defined.

(** X4: [is_attendance_required] reads back what [set_attendance_required]
    wrote, for the type it was set for and for every type of the same group
    (lecture or exercise). *)
Theorem attendance_set_then_read (c : Course.t) (ty ty' : Type_.t) (required : bool) :
  Type_.is_lecture ty || Type_.is_exercise ty = true →
  Type_.is_lecture ty' = Type_.is_lecture ty →
  Type_.is_exercise ty' = Type_.is_exercise ty →
  Course.is_attendance_required (Course.set_attendance_required c ty required) ty'
  = required.
Proof.
  intros Hgroup Hlec Hex.
  unfold Course.is_attendance_required, Course.set_attendance_required.
  rewrite Hlec, Hex.
  destruct (Type_.is_lecture ty); [done|].
  destruct (Type_.is_exercise ty); done.
Qed.

Lemma attendance_set_then_read_witness :
  Course.is_attendance_required
    (Course.set_attendance_required Example.calculus Type_.LAB false) Type_.PRACTICE
  = false.
Proof.
  apply (attendance_set_then_read Example.calculus Type_.LAB Type_.PRACTICE false);
    reflexivity.
Defined.

(** X5: setting the attendance of a type leaves the answer unchanged for
    every type outside its group; for a type that is neither a lecture nor
    an exercise the setter changes nothing and attendance stays required. *)
Theorem attendance_other_group_untouched (c : Course.t) (ty ty' : Type_.t)
    (required : bool) :
  Type_.is_lecture ty && Type_.is_lecture ty' = false →
  Type_.is_exercise ty && Type_.is_exercise ty' = false →
  Course.is_attendance_required (Course.set_attendance_required c ty required) ty'
  = Course.is_attendance_required c ty'
  ∧ (Type_.is_lecture ty' || Type_.is_exercise ty' = false →
     Course.set_attendance_required c ty' required = c
     ∧ Course.is_attendance_required c ty' = true).
Proof.
  intros Hlec Hex.
  unfold Course.is_attendance_required, Course.set_attendance_required.
  destruct ty, ty'; try discriminate; split; try done; discriminate.
Qed.

Lemma attendance_other_group_untouched_witness :
  Course.is_attendance_required
    (Course.set_attendance_required Example.calculus Type_.LECTURE false) Type_.LAB
  = Course.is_attendance_required Example.calculus Type_.LAB
  ∧ (Type_.is_lecture Type_.LAB || Type_.is_exercise Type_.LAB = false →
     Course.set_attendance_required Example.calculus Type_.LAB false = Example.calculus
     ∧ Course.is_attendance_required Example.calculus Type_.LAB = true).
Proof.
  apply (attendance_other_group_untouched Example.calculus Type_.LECTURE Type_.LAB
           false); reflexivity.
Defined.

(** X6: [add_semesters] accumulates: the semesters afterwards are the union
    of the old ones and the new ones, so adding is idempotent, independent
    of the order of two additions, and commutes with
    [set_attendance_required]. *)
Theorem add_semesters_accumulates (c : Course.t) (s1 s2 : Semester + gset Semester)
    (ty : Type_.t) (required : bool) :
  Course.semesters (Course.add_semesters c s1)
  = Course.semesters c ∪ Course.as_set s1
  ∧ Course.add_semesters (Course.add_semesters c s1) s1 = Course.add_semesters c s1
  ∧ Course.add_semesters (Course.add_semesters c s1) s2
    = Course.add_semesters (Course.add_semesters c s2) s1
  ∧ Course.add_semesters (Course.set_attendance_required c ty required) s1
    = Course.set_attendance_required (Course.add_semesters c s1) ty required.
Proof.
  split_and!.
  - done.
  - unfold Course.add_semesters; simpl. f_equal. set_solver.
  - unfold Course.add_semesters; simpl. f_equal. set_solver.
  - unfold Course.add_semesters, Course.set_attendance_required.
    destruct (Type_.is_lecture ty), (Type_.is_exercise ty); done.
Qed.

(** ** Campuses: [load_campus_id], [save_campuses], [load_campuses],
       [load_campus_names] *)

Lemma load_campus_id_Ok_elem tb campus_name i :
  Database.load_campus_id (Some tb) campus_name = Ok i →
  ∃ r, r ∈ campuses tb ∧ cp_id r = i
       ∧ (cp_english_name r = campus_name ∨ cp_hebrew_name r = campus_name).
Proof.
  unfold Database.load_campus_id.
  destruct (filter _ (campuses tb)) as [|r rows] eqn:E; [done|].
  intros [= <-]. exists r.
  assert (r ∈ filter (λ r, cp_english_name r = campus_name
                           ∨ cp_hebrew_name r = campus_name) (campuses tb)) as Hin
    by (rewrite E; left).
  apply list_elem_of_filter in Hin as [Hname Hr]. done.
Qed.

(** X7: [load_campus_id] succeeds exactly for the names, English or Hebrew,
    that some row of [campuses] carries, and the id it returns is the id of
    such a row. *)
Theorem load_campus_id_resolves tb campus_name :
  (Database.known_campus tb campus_name
   ↔ ∃ i, Database.load_campus_id (Some tb) campus_name = Ok i)
  ∧ ∀ i, Database.load_campus_id (Some tb) campus_name = Ok i →
         ∃ r, r ∈ campuses tb ∧ cp_id r = i
              ∧ (cp_english_name r = campus_name ∨ cp_hebrew_name r = campus_name).
Proof.
  split; [split|].
  - apply load_campus_id_known.
  - intros [i Hi]. apply load_campus_id_Ok_elem in Hi as (r & ? & ? & ?).
    by exists r.
  - apply load_campus_id_Ok_elem.
Qed.

Lemma load_campus_id_unique tb r campus_name :
  r ∈ campuses tb →
  cp_english_name r = campus_name ∨ cp_hebrew_name r = campus_name →
  (∀ r', r' ∈ campuses tb →
         cp_english_name r' = campus_name ∨ cp_hebrew_name r' = campus_name →
         cp_id r' = cp_id r) →
  Database.load_campus_id (Some tb) campus_name = Ok (cp_id r).
Proof.
  intros Hr Hname Huniq.
  destruct (load_campus_id_known tb campus_name) as [i Hi]; [by exists r|].
  rewrite Hi. f_equal.
  apply load_campus_id_Ok_elem in Hi as (r' & Hr' & <- & Hname').
  by apply Huniq.
Qed.

(** X8: when all the rows that carry a name, in either language, have the
    same id, [load_campus_id] returns that id. *)
Theorem load_campus_id_by_either_name tb r campus_name :
  r ∈ campuses tb →
  cp_english_name r = campus_name ∨ cp_hebrew_name r = campus_name →
  (∀ r', r' ∈ campuses tb →
         cp_english_name r' = campus_name ∨ cp_hebrew_name r' = campus_name →
         cp_id r' = cp_id r) →
  Database.load_campus_id (Some tb) campus_name = Ok (cp_id r).
Proof. apply load_campus_id_unique. Qed.

Lemma load_campus_id_by_either_name_witness :
  Database.load_campus_id (Some Example.tables) "Tzafon" = Ok 2.
Proof.
  apply (load_campus_id_by_either_name Example.tables
           {| cp_id := 2; cp_english_name := "North"; cp_hebrew_name := "Tzafon" |}
           "Tzafon").
  - right. left.
  - by right.
  - intros r' Hr' Hname. simpl in Hr'.
    repeat (apply elem_of_cons in Hr' as [->|Hr']);
      [by destruct Hname | done | by apply elem_of_nil in Hr'].
Defined.

Section Campuses.
Implicit Types (rows : list campuses_row) (items : list (Z * (string * string))).

Lemma insert_or_ignore_campus_elem rows r r' :
  r' ∈ Database.insert_or_ignore_campus rows r
  ↔ r' ∈ rows ∨ (r' = r ∧ cp_id r ∉ cp_id <$> rows).
Proof.
  unfold Database.insert_or_ignore_campus. case_decide as Hid.
  - naive_solver.
  - rewrite elem_of_app, list_elem_of_singleton. naive_solver.
Qed.

Lemma insert_or_ignore_campus_ids rows r :
  NoDup (cp_id <$> rows) →
  NoDup (cp_id <$> Database.insert_or_ignore_campus rows r).
Proof.
  intros Hnd. unfold Database.insert_or_ignore_campus. case_decide as Hid; [done|].
  rewrite fmap_app. apply NoDup_app. split_and!; [done| |apply NoDup_singleton].
  intros i Hi Hi'. apply list_elem_of_singleton in Hi' as ->. done.
Qed.

Lemma insert_campuses_ids rows items :
  NoDup (cp_id <$> rows) →
  NoDup (cp_id <$> foldl (λ rows item, Database.insert_or_ignore_campus rows
                                         (Database.campus_row_of_item item))
                     rows items).
Proof.
  revert rows. induction items as [|item items IH]; intros rows Hnd; simpl; [done|].
  by apply IH, insert_or_ignore_campus_ids.
Qed.

Lemma insert_campuses_elem rows items r :
  NoDup items.*1 →
  r ∈ foldl (λ rows item, Database.insert_or_ignore_campus rows
                            (Database.campus_row_of_item item)) rows items
  ↔ r ∈ rows
    ∨ ∃ item, item ∈ items ∧ r = Database.campus_row_of_item item
              ∧ item.1 ∉ cp_id <$> rows.
Proof.
  revert rows. induction items as [|item items IH]; intros rows; simpl.
  - intros _. split; [by left|]. intros [?|(item & Hitem & _)]; [done|].
    by apply elem_of_nil in Hitem.
  - rewrite NoDup_cons. intros [Hfresh Hnd]. rewrite IH by done.
    rewrite insert_or_ignore_campus_elem. setoid_rewrite elem_of_cons.
    assert (∀ item', item' ∈ items →
              (item'.1 ∉ cp_id <$> Database.insert_or_ignore_campus rows
                                     (Database.campus_row_of_item item)
               ↔ item'.1 ∉ cp_id <$> rows)) as Hsame.
    { intros item' Hitem'.
      assert (item'.1 ≠ item.1) as Hne.
      { intros Heq. apply Hfresh, list_elem_of_fmap. by exists item'. }
      rewrite !list_elem_of_fmap. setoid_rewrite insert_or_ignore_campus_elem.
      split; intros Hnot (r' & ? & Hr'); apply Hnot; [naive_solver|].
      destruct Hr' as [?| [-> _]]; [by exists r'|]. by subst. }
    split.
    + intros [[?|[-> ?]]|(item' & Hitem' & -> & Hid)].
      * by left.
      * right. exists item. naive_solver.
      * right. exists item'. split_and!; [by right|done|by apply Hsame].
    + intros [?|(item' & [->|Hitem'] & -> & Hid)].
      * by left; left.
      * left. by right.
      * right. exists item'. split_and!; [done..|by apply Hsame].
Qed.

Lemma load_campuses_lookup rows i v :
  NoDup (cp_id <$> rows) →
  foldl (λ d r, <[cp_id r := (cp_english_name r, cp_hebrew_name r)]> d)
        (∅ : gmap Z (string * string)) rows !! i = Some v
  ↔ ∃ r, r ∈ rows ∧ cp_id r = i ∧ v = (cp_english_name r, cp_hebrew_name r).
Proof.
  induction rows as [|r rows IH] using rev_ind.
  - intros _. simpl. rewrite lookup_empty. split; [done|].
    intros (r & Hr & _). by apply elem_of_nil in Hr.
  - rewrite fmap_app, foldl_app. simpl. intros Hnd.
    apply NoDup_app in Hnd as (Hnd & Hfresh & _).
    setoid_rewrite elem_of_app. setoid_rewrite list_elem_of_singleton.
    destruct (decide (cp_id r = i)) as [<-|Hne].
    + rewrite lookup_insert_eq. split.
      * intros [= <-]. exists r. by split_and!; [right|..].
      * intros (r' & [Hr'| ->] & Hid & ->); [|done].
        destruct (Hfresh (cp_id r)); [|by left].
        apply list_elem_of_fmap. by exists r'.
    + rewrite lookup_insert_ne by done. rewrite IH by done. naive_solver.
Qed.

End Campuses.

(** X9: [save_campuses] keeps the primary key of [campuses]: no two rows
    with the same id, whatever is saved. *)
Theorem save_campuses_keeps_primary_key tb new_campuses tb' :
  Database.campuses_primary_key tb →
  Database.save_campuses (Some tb) new_campuses = Ok tb' →
  Database.campuses_primary_key tb'.
Proof.
  unfold Database.campuses_primary_key. intros Hpk [= <-]. simpl.
  by apply insert_campuses_ids.
Qed.

(** X10: after [save_campuses], [load_campuses] returns the campuses that
    were in the table before, and those of the saved ones whose id was not
    in the table; a saved campus never replaces a stored one. *)
Theorem save_then_load_campuses tb new_campuses tb' :
  Database.campuses_primary_key tb →
  Database.save_campuses (Some tb) new_campuses = Ok tb' →
  Database.load_campuses (Some tb')
  = Database.load_campuses (Some tb) ∪ new_campuses.
Proof.
  intros Hpk Hsave. unfold Database.campuses_primary_key in Hpk.
  pose proof (insert_campuses_ids _ (map_to_list new_campuses) Hpk) as Hpk'.
  injection Hsave as <-. simpl.
  apply map_eq. intros i. apply option_eq. intros v.
  rewrite lookup_union_Some_raw, !load_campuses_lookup by done.
  setoid_rewrite insert_campuses_elem; [|apply NoDup_fst_map_to_list].
  assert (foldl (λ d r, <[cp_id r := (cp_english_name r, cp_hebrew_name r)]> d)
            (∅ : gmap Z (string * string)) (campuses tb) !! i = None
          ↔ i ∉ cp_id <$> campuses tb) as Hnone.
  { rewrite eq_None_not_Some, list_elem_of_fmap. split.
    - intros Hnot (r & -> & Hr). apply Hnot. eexists.
      apply load_campuses_lookup; [done|]. by exists r.
    - intros Hnot [v' Hv']. apply load_campuses_lookup in Hv' as (r & ? & ? & ?);
        [|done]. apply Hnot. by exists r. }
  rewrite Hnone. split.
  - intros (r & [Hr|([i' [en he]] & Hitem & -> & Hid)] & <- & ->).
    + left. by exists r.
    + right. apply elem_of_map_to_list in Hitem. done.
  - intros [(r & Hr & <- & ->)|[Hid Hv]].
    + exists r. split_and!; [by left|done..].
    + destruct v as [en he]. exists (Database.campus_row_of_item (i, (en, he))).
      split_and!; [|done..]. right. exists (i, (en, he)).
      split_and!; [by apply elem_of_map_to_list|done..].
Qed.

(** X11: a saved campus whose id is new, and whose name no stored row and no
    other saved campus carries, resolves to its id afterwards, by its
    English name and by its Hebrew name. *)
Theorem saved_campus_resolves tb new_campuses tb' i en he campus_name :
  Database.save_campuses (Some tb) new_campuses = Ok tb' →
  new_campuses !! i = Some (en, he) →
  campus_name = en ∨ campus_name = he →
  i ∉ cp_id <$> campuses tb →
  ¬ Database.known_campus tb campus_name →
  (∀ i' en' he', new_campuses !! i' = Some (en', he') →
                 en' = campus_name ∨ he' = campus_name → i' = i) →
  Database.load_campus_id (Some tb') campus_name = Ok i.
Proof.
  intros [= <-] Hi Hname Hfresh Hunknown Huniq.
  apply (load_campus_id_unique _ (Database.campus_row_of_item (i, (en, he)))).
  - simpl. apply insert_campuses_elem; [apply NoDup_fst_map_to_list|].
    right. exists (i, (en, he)). split_and!; [by apply elem_of_map_to_list|done..].
  - simpl. naive_solver.
  - simpl. intros r' Hr' Hname'.
    apply insert_campuses_elem in Hr'; [|apply NoDup_fst_map_to_list].
    destruct Hr' as [Hr'|([i' [en' he']] & Hitem & -> & _)].
    + destruct Hunknown. by exists r'.
    + apply elem_of_map_to_list in Hitem. simpl in *. by eapply Huniq.
Qed.

(** X12: every name [load_campus_names] lists, in either language, is a name
    [load_campus_id] resolves. *)
Theorem listed_campus_names_resolve (current : Language) store language campus_name :
  campus_name ∈ Database.load_campus_names current store language →
  ∃ i, Database.load_campus_id store campus_name = Ok i.
Proof.
  unfold Database.load_campus_names. destruct store as [tb|].
  - intros Hin. apply list_elem_of_fmap in Hin as (r & -> & Hr).
    apply load_campus_id_known. exists r. split; [done|].
    destruct (default current language); [by left|by right].
  - intros Hin. by apply elem_of_nil in Hin.
Qed.

Lemma example_campuses_primary_key : Database.campuses_primary_key Example.tables.
Proof.
  unfold Database.campuses_primary_key.
  refine (bool_decide_unpack (NoDup _) _). vm_compute. exact I.
Defined.

Lemma save_campuses_keeps_primary_key_witness :
  ∃ tb', Database.save_campuses (Some Example.tables) Example.more_campuses = Ok tb'
         ∧ Database.campuses_primary_key tb'.
Proof.
  eexists. split; [reflexivity|].
  apply (save_campuses_keeps_primary_key Example.tables Example.more_campuses).
  - exact example_campuses_primary_key.
  - reflexivity.
Defined.

Lemma save_then_load_campuses_witness :
  ∃ tb', Database.save_campuses (Some Example.tables) Example.more_campuses = Ok tb'
         ∧ Database.load_campuses (Some tb')
           = Database.load_campuses (Some Example.tables) ∪ Example.more_campuses.
Proof.
  eexists. split; [reflexivity|].
  apply (save_then_load_campuses Example.tables Example.more_campuses).
  - exact example_campuses_primary_key.
  - reflexivity.
Defined.

(** The stored campus 2 keeps its names, the new campus 3 is added. *)
Example campuses_after_save :
  ∃ tb', Database.save_campuses (Some Example.tables) Example.more_campuses = Ok tb'
         ∧ Database.load_campuses (Some tb') !! 2 = Some ("North", "Tzafon")%string
         ∧ Database.load_campuses (Some tb') !! 3 = Some ("South", "Darom")%string
         ∧ Database.load_campus_names ENGLISH (Some tb') None
           = ["Main"; "North"; "South"]%string.
Proof. eexists. split; [reflexivity|]. split_and!; vm_compute; reflexivity. Qed.

Lemma saved_campus_resolves_witness :
  ∃ tb', Database.save_campuses (Some Example.tables) Example.south = Ok tb'
         ∧ Database.load_campus_id (Some tb') "Darom" = Ok 3.
Proof.
  eexists. split; [reflexivity|].
  apply (saved_campus_resolves Example.tables Example.south _ 3
           "South"%string "Darom"%string "Darom"%string).
  - reflexivity.
  - apply lookup_singleton_eq.
  - by right.
  - simpl. intros Hin.
    repeat (apply elem_of_cons in Hin as [Hin|Hin]; [done|]).
    by apply elem_of_nil in Hin.
  - intros (r & Hr & Hname). simpl in Hr.
    repeat (apply elem_of_cons in Hr as [->|Hr]);
      [by destruct Hname..|by apply elem_of_nil in Hr].
  - intros i' en' he' Hi' _. unfold Example.south in Hi'.
    apply lookup_singleton_Some in Hi' as [<- _]. done.
Defined.

Lemma listed_campus_names_resolve_witness :
  ∃ i, Database.load_campus_id (Some Example.tables) "Rashi" = Ok i.
Proof.
  apply (listed_campus_names_resolve ENGLISH (Some Example.tables) (Some HEBREW)
           "Rashi"%string).
  simpl. left.
Defined.

(** ** [load_active_courses] and the default of [load_courses_choices] *)

Section ActiveCourses.
Variable short_name : Language → string.

Lemma course_of_row_inj : Inj (=) (=) Database.course_of_row.
Proof.
  intros [n1 c1 p1 l1] [n2 c2 p2 l2]. unfold Database.course_of_row. simpl.
  by intros [= -> -> -> ->].
Qed.

Lemma load_active_courses_known tb campus_name cid language :
  Database.load_campus_id (Some tb) campus_name = Ok cid →
  ∃ rows, Database.load_active_courses short_name (Some tb) campus_name language
          = Ok (Database.course_of_row <$> rows)
          ∧ NoDup rows
          ∧ ∀ c, c ∈ rows
                 ↔ c ∈ courses tb
                   ∧ co_language_value c = short_name language
                   ∧ ∃ a, a ∈ activities tb
                          ∧ co_parent_course_number c = ac_parent_course_number a
                          ∧ co_course_number c = ac_course_number a
                          ∧ ac_language_value a = short_name language
                          ∧ ac_campus_id a = cid.
Proof.
  intros Hcampus. unfold Database.load_active_courses. rewrite Hcampus. simpl.
  eexists. split; [done|]. split; [apply NoDup_remove_dups|].
  intros c. rewrite elem_of_remove_dups, list_elem_of_bind. split.
  - intros (c' & Hc & Hc').
    apply list_elem_of_bind in Hc as (a & Hin & Ha).
    case_decide as Hcond; [|by apply elem_of_nil in Hin].
    apply list_elem_of_singleton in Hin as ->.
    destruct Hcond as (? & ? & ? & ? & ?).
    split_and!; [done..|]. exists a. split_and!; [done..|congruence|done].
  - intros (Hc & Hlang & a & Ha & ? & ? & ? & ?). exists c. split; [|done].
    apply list_elem_of_bind. exists a. split; [|done].
    rewrite decide_True; [by apply list_elem_of_singleton|].
    split_and!; [done..|congruence|done|done].
Qed.

(** X13: with a known campus, [load_active_courses] returns, each once, the
    courses built from the rows of [courses] in the language that match, by
    both course numbers, at least one activity of the campus in that
    language. *)
Theorem active_courses_have_activities tb campus_name cid language :
  Database.load_campus_id (Some tb) campus_name = Ok cid →
  ∃ cs, Database.load_active_courses short_name (Some tb) campus_name language = Ok cs
        ∧ NoDup cs
        ∧ ∀ course, course ∈ cs
            ↔ ∃ c a, c ∈ courses tb ∧ a ∈ activities tb
                     ∧ course = Database.course_of_row c
                     ∧ co_language_value c = short_name language
                     ∧ co_parent_course_number c = ac_parent_course_number a
                     ∧ co_course_number c = ac_course_number a
                     ∧ ac_language_value a = short_name language
                     ∧ ac_campus_id a = cid.
Proof.
  intros Hcampus.
  destruct (load_active_courses_known tb campus_name cid language Hcampus)
    as (rows & -> & Hnd & Hrows).
  eexists. split; [done|]. split.
  - apply NoDup_fmap_2; [apply course_of_row_inj|done].
  - intros course. rewrite list_elem_of_fmap. split.
    + intros (c & -> & Hc). apply Hrows in Hc as (? & ? & a & ? & ? & ? & ? & ?).
      by exists c, a.
    + intros (c & a & ? & ? & -> & ? & ? & ? & ? & ?). exists c. split; [done|].
      apply Hrows. split_and!; [done..|]. by exists a.
Qed.

(** X14: the courses [load_active_courses] returns carry the language code
    as their [activity_id], so any two of them compare equal under
    [__eq__], whatever their names and numbers are. *)
Theorem active_courses_compare_equal store campus_name language cs c1 c2 :
  Database.load_active_courses short_name store campus_name language = Ok cs →
  short_name language ≠ ""%string →
  c1 ∈ cs → c2 ∈ cs →
  Course.activity_id c1 = Some (short_name language)
  ∧ Course.__eq__ c1 c2 = true.
Proof.
  intros Hload Hcode H1 H2.
  assert (∀ c, c ∈ cs → Course.activity_id c = Some (short_name language)) as Hid.
  { destruct store as [tb|]; [|injection Hload as <-; intros c Hc;
                                 by apply elem_of_nil in Hc].
    destruct (Database.load_campus_id (Some tb) campus_name) as [cid|e] eqn:Hcampus.
    - destruct (load_active_courses_known tb campus_name cid language Hcampus)
        as (rows & Heq & _ & Hrows).
      rewrite Heq in Hload. injection Hload as <-. intros c Hc.
      apply list_elem_of_fmap in Hc as (row & -> & Hrow).
      apply Hrows in Hrow as (_ & <- & _). done.
    - unfold Database.load_active_courses in Hload. by rewrite Hcampus in Hload. }
  split; [by apply Hid|].
  apply eq_by_activity_id; rewrite ?(Hid c1), ?(Hid c2) by done; try done;
    apply truthy_Some_nonempty; by eexists.
Qed.

(** X15: without a list of courses, or with an empty one,
    [load_courses_choices] is [load_courses_choices] on the courses
    [load_active_courses] returns. *)
Theorem load_courses_choices_default tb campus_name language courses :
  courses = None ∨ courses = Some [] →
  Database.load_courses_choices short_name (Some tb) campus_name language courses
  = let* cs := Database.load_active_courses short_name (Some tb) campus_name language in
    Database.load_courses_choices short_name (Some tb) campus_name language (Some cs).
Proof.
  intros Hcourses. unfold Database.load_courses_choices.
  destruct (Database.load_campus_id (Some tb) campus_name) as [cid|e] eqn:Hcampus.
  - destruct (load_active_courses_known tb campus_name cid language Hcampus)
      as (rows & Heq & _).
    destruct Hcourses as [-> | ->]; rewrite !Heq; cbn [bind];
      destruct (_ <$> rows) eqn:Hrows; rewrite ?Heq, ?Hrows; done.
  - unfold Database.load_active_courses. rewrite Hcampus.
    by destruct Hcourses as [-> | ->].
Qed.

End ActiveCourses.

Lemma active_courses_have_activities_witness :
  ∃ cs, Database.load_active_courses Example.iso_code (Some Example.tables)
          "Main" ENGLISH = Ok cs
        ∧ NoDup cs
        ∧ ∀ course, course ∈ cs
            ↔ ∃ c a, c ∈ courses Example.tables ∧ a ∈ activities Example.tables
                     ∧ course = Database.course_of_row c
                     ∧ co_language_value c = Example.iso_code ENGLISH
                     ∧ co_parent_course_number c = ac_parent_course_number a
                     ∧ co_course_number c = ac_course_number a
                     ∧ ac_language_value a = Example.iso_code ENGLISH
                     ∧ ac_campus_id a = 1.
Proof.
  apply (active_courses_have_activities Example.iso_code Example.tables "Main" 1
           ENGLISH).
  reflexivity.
Defined.

(** On the example, Calculus I and Algebra have activities on the Main
    campus and Logic has none. *)
Example active_courses_on_main :
  Database.load_active_courses Example.iso_code (Some Example.tables) "Main" ENGLISH
  = Ok [Example.calculus_loaded; Example.algebra_loaded].
Proof. vm_compute. reflexivity. Qed.

Lemma active_courses_compare_equal_witness :
  Course.activity_id Example.calculus_loaded = Some (Example.iso_code ENGLISH)
  ∧ Course.__eq__ Example.calculus_loaded Example.algebra_loaded = true.
Proof.
  apply (active_courses_compare_equal Example.iso_code (Some Example.tables)
           "Main" ENGLISH [Example.calculus_loaded; Example.algebra_loaded]).
  - vm_compute. reflexivity.
  - discriminate.
  - left.
  - right. left.
Defined.

Lemma load_courses_choices_default_witness :
  Database.load_courses_choices Example.iso_code (Some Example.tables) "Main"
    ENGLISH None
  = let* cs := Database.load_active_courses Example.iso_code (Some Example.tables)
                 "Main" ENGLISH in
    Database.load_courses_choices Example.iso_code (Some Example.tables) "Main"
      ENGLISH (Some cs).
Proof.
  apply (load_courses_choices_default Example.iso_code Example.tables "Main"
           ENGLISH None).
  by left.
Defined.

(** ** The builder and the two activity loaders together *)

Section Loaders.
Variable short_name : Language → string.
Implicit Types (tb : Tables) (choices : gmap string CourseChoice).

Lemma lecturer_condition_is_Some (teachers : list string) (lecturer : option string) :
  Database.lecturer_condition teachers lecturer = true → is_Some lecturer.
Proof.
  destruct teachers as [|t ts]; simpl.
  - apply bool_decide_eq_true.
  - destruct lecturer; [by eexists|done].
Qed.

Lemma activity_selected_kind n cc cid lang r :
  Database.activity_selected short_name n cc cid lang r = true →
  is_Some (ac_lecturer_name r)
  ∧ (ac_activity_type r ∈ Database.lecture_types
     ∨ ac_activity_type r ∈ Database.practice_types).
Proof.
  unfold Database.activity_selected. intros H.
  apply andb_prop in H as [_ H]. apply orb_prop in H as [H|H];
    apply andb_prop in H as [Hty Hl]; apply bool_decide_eq_true in Hty;
    apply lecturer_condition_is_Some in Hl; auto.
Qed.

(** X16: a lecturer the builder offers for a course can be retrieved with
    the builder's own mapping: an activity of the scope that bears the
    course's name, is taught by a lecturer of a fetched row and is of the
    kind group of that row's flag is returned. *)
Theorem offered_lecturer_is_retrievable tb campus_name cid language c cs course
    (lecturer : string) (flag : bool) r :
  Database.load_campus_id (Some tb) campus_name = Ok cid →
  course ∈ c :: cs →
  (lecturer, flag) ∈ Database.lecturer_roles short_name tb cid language course →
  r ∈ activities tb →
  ac_name r = Course.name course →
  ac_campus_id r = cid →
  ac_language_value r = short_name language →
  ac_lecturer_name r = Some lecturer →
  ac_activity_type r ∈ (if flag then Database.lecture_types
                        else Database.practice_types) →
  ∃ m acts, Database.load_courses_choices short_name (Some tb) campus_name language
              (Some (c :: cs)) = Ok m
            ∧ Database.load_activities_by_courses_choices short_name (Some tb) m
                campus_name language = Ok acts
            ∧ Database.activity_of_row short_name tb cid language r ∈ acts.
Proof.
  intros Hcampus Hcourse Hrow Hr Hname Hcid Hlang Hlect Hty.
  set (data := Database.collect_courses short_name tb cid language (c :: cs)).
  assert (is_Some (Database.materialize data !! Course.name course)) as [cc Hcc].
  { apply materialize_is_Some, collect_courses_dom. exists course.
    split_and!; [done..|]. intros Hnil. rewrite Hnil in Hrow.
    by apply elem_of_nil in Hrow. }
  assert (lecturer ∈ Database.teachers flag cc) as Hin.
  { apply (materialize_teachers data (Course.name course) cc flag lecturer Hcc).
    apply collect_courses_role. by exists course. }
  exists (Database.materialize data). eexists.
  split; [by apply load_courses_choices_nonempty|].
  split; [by apply load_activities_known|].
  apply elem_of_retrieved. exists (Course.name course), cc, r.
  split_and!; [done..| |done].
  assert (Database.lecturer_condition (Database.teachers flag cc) (Some lecturer)
          = true) as Hcond.
  { destruct (Database.teachers flag cc) as [|t ts] eqn:E;
      [by apply elem_of_nil in Hin|].
    simpl. by apply bool_decide_eq_true. }
  destruct flag; simpl in Hty, Hcond.
  - rewrite activity_selected_lecture by done. rewrite Hlect, Hcond.
    by rewrite !bool_decide_eq_true_2.
  - rewrite activity_selected_practice by done. rewrite Hlect, Hcond.
    by rewrite !bool_decide_eq_true_2.
Qed.

(** X17: whatever the choices are, every activity
    [load_activities_by_courses_choices] returns bears the name of an entry,
    has a lecturer, is a lecture, a seminar, a practice or a lab, and comes
    from a row of the campus and the language of the call. *)
Theorem retrieved_activity_is_requested store choices campus_name language acts a :
  Database.load_activities_by_courses_choices short_name store choices
    campus_name language = Ok acts →
  a ∈ acts →
  is_Some (choices !! name a)
  ∧ is_Some (lecturer_name a)
  ∧ (type a ∈ Database.lecture_types ∨ type a ∈ Database.practice_types)
  ∧ ∃ tb cid r, store = Some tb
                ∧ Database.load_campus_id (Some tb) campus_name = Ok cid
                ∧ r ∈ activities tb
                ∧ ac_campus_id r = cid
                ∧ ac_language_value r = short_name language
                ∧ a = Database.activity_of_row short_name tb cid language r.
Proof.
  intros Hload Ha.
  apply load_activities_Ok_inv in Hload as [[-> ->]|(tb & cid & -> & Hcampus & ->)];
    [by apply elem_of_nil in Ha|].
  apply elem_of_retrieved in Ha as (n & cc & r & Hcc & Hr & Hsel & ->).
  pose proof (activity_selected_scope _ _ _ _ _ _ Hsel) as (Hn & Hl & Hc).
  pose proof (activity_selected_kind _ _ _ _ _ Hsel) as [Hlect Hty].
  simpl. rewrite Hn. split_and!; [by eexists|done..|].
  by exists tb, cid, r.
Qed.

(** X18: the activities returned under a course name depend on that name's
    entry only: two dictionaries that agree on a name return the same
    activities of that name. *)
Theorem retrieval_is_per_course tb campus_name cid language choices1 choices2 n :
  Database.load_campus_id (Some tb) campus_name = Ok cid →
  choices1 !! n = choices2 !! n →
  ∃ acts1 acts2,
    Database.load_activities_by_courses_choices short_name (Some tb) choices1
      campus_name language = Ok acts1
    ∧ Database.load_activities_by_courses_choices short_name (Some tb) choices2
        campus_name language = Ok acts2
    ∧ ∀ a, name a = n → (a ∈ acts1 ↔ a ∈ acts2).
Proof.
  intros Hcampus Hagree. eexists _, _.
  split; [by apply load_activities_known|].
  split; [by apply load_activities_known|].
  assert (∀ ch1 ch2 a, ch1 !! n = ch2 !! n → name a = n →
            a ∈ (map_to_list ch1
                   ≫= Database.activities_of_choice short_name tb cid language) →
            a ∈ (map_to_list ch2
                   ≫= Database.activities_of_choice short_name tb cid language))
    as Hone.
  { intros ch1 ch2 a Heq Hname Ha.
    apply elem_of_retrieved in Ha as (n' & cc & r & Hcc & Hr & Hsel & ->).
    pose proof (activity_selected_scope _ _ _ _ _ _ Hsel) as (Hn & _ & _).
    simpl in Hname. assert (n' = n) as -> by congruence.
    apply elem_of_retrieved. exists n, cc, r. by rewrite <-Heq. }
  intros a Hname. split; by apply Hone.
Qed.

Lemma elem_of_academic tb cid language (courses : list Course.t) a :
  a ∈ Database.activity_of_row short_name tb cid language <$>
        filter (λ r, ac_campus_id r = cid
                     ∧ ac_language_value r = short_name language
                     ∧ ac_parent_course_number r
                         ∈ Course.parent_course_number <$> courses)
               (activities tb)
  ↔ ∃ r, r ∈ activities tb ∧ ac_campus_id r = cid
         ∧ ac_language_value r = short_name language
         ∧ ac_parent_course_number r ∈ Course.parent_course_number <$> courses
         ∧ a = Database.activity_of_row short_name tb cid language r.
Proof. rewrite list_elem_of_fmap. setoid_rewrite list_elem_of_filter. naive_solver. Qed.

Lemma load_academic_known tb campus_name cid language courses :
  Database.load_campus_id (Some tb) campus_name = Ok cid →
  Database.load_academic_activities short_name (Some tb) campus_name language courses
  = Ok (Database.activity_of_row short_name tb cid language <$>
          filter (λ r, ac_campus_id r = cid
                       ∧ ac_language_value r = short_name language
                       ∧ ac_parent_course_number r
                           ∈ Course.parent_course_number <$> courses)
                 (activities tb)).
Proof. intros H. unfold Database.load_academic_activities. by rewrite H. Qed.

(** X19: [load_academic_activities] returns every activity of the scope
    whose parent course number is one of the courses', whatever its kind
    is and whether or not it has a lecturer, and nothing else. *)
Theorem academic_activities_by_parent_number tb campus_name cid language courses :
  Database.load_campus_id (Some tb) campus_name = Ok cid →
  ∃ acts, Database.load_academic_activities short_name (Some tb) campus_name
            language courses = Ok acts
          ∧ (∀ r course, r ∈ activities tb → course ∈ courses →
               ac_campus_id r = cid → ac_language_value r = short_name language →
               ac_parent_course_number r = Course.parent_course_number course →
               Database.activity_of_row short_name tb cid language r ∈ acts)
          ∧ ∀ a, a ∈ acts →
                 ∃ r course, r ∈ activities tb ∧ course ∈ courses
                             ∧ ac_campus_id r = cid
                             ∧ ac_language_value r = short_name language
                             ∧ parent_course_number a
                               = Course.parent_course_number course
                             ∧ a = Database.activity_of_row short_name tb cid
                                     language r.
Proof.
  intros Hcampus. eexists. split; [by apply load_academic_known|]. split.
  - intros r course Hr Hcourse Hc Hl Hp. apply elem_of_academic. exists r.
    split_and!; [done..| |done]. apply list_elem_of_fmap. by exists course.
  - intros a Ha. apply elem_of_academic in Ha as (r & Hr & Hc & Hl & Hp & ->).
    apply list_elem_of_fmap in Hp as (course & Hp & Hcourse).
    by exists r, course.
Qed.

(** X20: when the rows of [activities] respect the primary key, the list
    [load_academic_activities] returns has no two entries with the same
    activity id. *)
Theorem academic_activities_are_distinct store campus_name language courses acts :
  (∀ tb, store = Some tb → activities_primary_key tb) →
  Database.load_academic_activities short_name store campus_name language courses
  = Ok acts →
  NoDup (activity_id <$> acts).
Proof.
  intros Hpk. unfold Database.load_academic_activities.
  destruct store as [tb|]; [|intros [= <-]; constructor].
  destruct (Database.load_campus_id (Some tb) campus_name) as [cid|e]; [|done].
  simpl. intros [= <-]. specialize (Hpk tb eq_refl).
  unfold activities_primary_key in Hpk. rewrite <-list_fmap_compose.
  induction (activities tb) as [|r rows IH]; simpl; [constructor|].
  apply NoDup_cons in Hpk as [Hnotin Hnd].
  rewrite filter_cons. case_decide as Hsel; [|by apply IH].
  rewrite fmap_cons. apply NoDup_cons. split; [|by apply IH].
  rewrite list_elem_of_fmap. intros (r' & Hid & Hr').
  apply list_elem_of_filter in Hr' as [(Hc' & Hl' & _) Hr'].
  destruct Hsel as (Hc & Hl & _).
  apply Hnotin, list_elem_of_fmap. exists r'. split; [|done].
  unfold activities_key. simpl in Hid. congruence.
Qed.

(** X21: an activity [load_activities_by_courses_choices] returns is also
    returned, with the same meetings, by [load_academic_activities] for any
    courses that include its parent course number. *)
Theorem retrieved_within_academic tb campus_name cid language choices courses :
  Database.load_campus_id (Some tb) campus_name = Ok cid →
  ∃ acts all,
    Database.load_activities_by_courses_choices short_name (Some tb) choices
      campus_name language = Ok acts
    ∧ Database.load_academic_activities short_name (Some tb) campus_name language
        courses = Ok all
    ∧ ∀ a, a ∈ acts →
           parent_course_number a ∈ Course.parent_course_number <$> courses →
           a ∈ all.
Proof.
  intros Hcampus. eexists _, _.
  split; [by apply load_activities_known|].
  split; [by apply load_academic_known|].
  intros a Ha Hp.
  apply elem_of_retrieved in Ha as (n & cc & r & Hcc & Hr & Hsel & ->).
  pose proof (activity_selected_scope _ _ _ _ _ _ Hsel) as (_ & Hl & Hc).
  apply elem_of_academic. by exists r.
Qed.

(** X22: the lecturers of a [CourseChoice] come from the scope of the call:
    each one is the lecturer of a row of [courses_lecturers] with the flag
    of the list, the campus and the language of the call, and the two
    course numbers of an input course of that name. *)
Theorem offered_lecturers_are_scoped tb campus_name cid language c cs m n cc flag l :
  Database.load_campus_id (Some tb) campus_name = Ok cid →
  Database.load_courses_choices short_name (Some tb) campus_name language
    (Some (c :: cs)) = Ok m →
  m !! n = Some cc →
  l ∈ Database.teachers flag cc →
  ∃ row course, row ∈ courses_lecturers tb ∧ course ∈ c :: cs
                ∧ Course.name course = n
                ∧ cl_lecturer_name row = l
                ∧ cl_is_lecture_rule row = flag
                ∧ cl_campus_id row = cid
                ∧ cl_language_value row = short_name language
                ∧ cl_course_number row = Course.course_number course
                ∧ cl_parent_course_number row = Course.parent_course_number course.
Proof.
  intros Hcampus Hload Hcc Hl.
  rewrite (load_courses_choices_nonempty short_name tb campus_name cid) in Hload
    by done.
  injection Hload as <-.
  apply (materialize_teachers _ n cc flag l Hcc) in Hl.
  apply collect_courses_role in Hl as (course & Hcourse & Hname & Hrow).
  unfold Database.lecturer_roles in Hrow.
  apply list_elem_of_fmap in Hrow as (row & [= -> ->] & Hrow).
  apply list_elem_of_filter in Hrow as [(? & ? & ? & ?) Hrow].
  by exists row, course.
Qed.

End Loaders.

Lemma offered_lecturer_is_retrievable_witness :
  ∃ m acts, Database.load_courses_choices Example.iso_code (Some Example.tables)
              "Main" ENGLISH (Some [Example.calculus]) = Ok m
            ∧ Database.load_activities_by_courses_choices Example.iso_code
                (Some Example.tables) m "Main" ENGLISH = Ok acts
            ∧ Database.activity_of_row Example.iso_code Example.tables 1 ENGLISH
                (Example.activity "Calculus I" Type_.LECTURE (Some "Cohen"%string)
                   1 10 "L1" 1)
              ∈ acts.
Proof.
  apply (offered_lecturer_is_retrievable Example.iso_code Example.tables "Main" 1
           ENGLISH Example.calculus [] Example.calculus "Cohen"%string true).
  - reflexivity.
  - left.
  - vm_compute. left.
  - left.
  - reflexivity.
  - reflexivity.
  - reflexivity.
  - reflexivity.
  - left.
Defined.

Lemma retrieved_activity_is_requested_witness :
  let a := Database.activity_of_row Example.iso_code Example.tables 1 ENGLISH
             (Example.activity "Calculus I" Type_.LECTURE (Some "Cohen"%string)
                1 10 "L1" 1) in
  is_Some (({[ "Calculus I"%string := Example.only_cohen ]}
              : gmap string CourseChoice) !! name a)
  ∧ is_Some (lecturer_name a)
  ∧ (type a ∈ Database.lecture_types ∨ type a ∈ Database.practice_types)
  ∧ ∃ tb cid r, Some Example.tables = Some tb
                ∧ Database.load_campus_id (Some tb) "Main" = Ok cid
                ∧ r ∈ activities tb
                ∧ ac_campus_id r = cid
                ∧ ac_language_value r = Example.iso_code ENGLISH
                ∧ a = Database.activity_of_row Example.iso_code tb cid ENGLISH r.
Proof.
  intros a.
  eapply (retrieved_activity_is_requested Example.iso_code (Some Example.tables)
            {[ "Calculus I"%string := Example.only_cohen ]} "Main" ENGLISH).
  - reflexivity.
  - vm_compute. left.
Defined.

Lemma retrieval_is_per_course_witness :
  ∃ acts1 acts2,
    Database.load_activities_by_courses_choices Example.iso_code
      (Some Example.tables) {[ "Calculus I"%string := Example.only_cohen ]}
      "Main" ENGLISH = Ok acts1
    ∧ Database.load_activities_by_courses_choices Example.iso_code
        (Some Example.tables)
        {[ "Calculus I"%string := Example.only_cohen;
           "Algebra"%string := Example.any_lecturer "Algebra" ]}
        "Main" ENGLISH = Ok acts2
    ∧ ∀ a, name a = "Calculus I"%string → (a ∈ acts1 ↔ a ∈ acts2).
Proof.
  apply (retrieval_is_per_course Example.iso_code Example.tables "Main" 1 ENGLISH).
  - reflexivity.
  - vm_compute. reflexivity.
Defined.

Lemma academic_activities_by_parent_number_witness :
  ∃ acts, Database.load_academic_activities Example.iso_code (Some Example.tables)
            "Main" ENGLISH [Example.calculus] = Ok acts
          ∧ (∀ r course, r ∈ activities Example.tables →
               course ∈ [Example.calculus] →
               ac_campus_id r = 1 → ac_language_value r = Example.iso_code ENGLISH →
               ac_parent_course_number r = Course.parent_course_number course →
               Database.activity_of_row Example.iso_code Example.tables 1 ENGLISH r
                 ∈ acts)
          ∧ ∀ a, a ∈ acts →
                 ∃ r course, r ∈ activities Example.tables
                             ∧ course ∈ [Example.calculus]
                             ∧ ac_campus_id r = 1
                             ∧ ac_language_value r = Example.iso_code ENGLISH
                             ∧ parent_course_number a
                               = Course.parent_course_number course
                             ∧ a = Database.activity_of_row Example.iso_code
                                     Example.tables 1 ENGLISH r.
Proof.
  apply (academic_activities_by_parent_number Example.iso_code Example.tables
           "Main" 1 ENGLISH [Example.calculus]).
  reflexivity.
Defined.

(** On the example the lab without a lecturer is loaded with the other
    activities of Calculus I, though no choice retrieves it. *)
Example academic_activities_of_calculus :
  ∃ acts, Database.load_academic_activities Example.iso_code (Some Example.tables)
            "Main" ENGLISH [Example.calculus] = Ok acts
          ∧ activity_id <$> acts = ["L1"; "L2"; "P1"; "P2"]%string.
Proof. eexists. split; [reflexivity|]. vm_compute. reflexivity. Qed.

Lemma academic_activities_are_distinct_witness :
  ∃ acts, Database.load_academic_activities Example.iso_code (Some Example.tables)
            "Main" ENGLISH [Example.calculus; Example.algebra] = Ok acts
          ∧ length acts = 5%nat
          ∧ NoDup (activity_id <$> acts).
Proof.
  eexists. split; [reflexivity|]. split; [vm_compute; reflexivity|].
  apply (academic_activities_are_distinct Example.iso_code (Some Example.tables)
           "Main" ENGLISH [Example.calculus; Example.algebra]).
  - intros tb [= <-]. exact example_primary_key.
  - reflexivity.
Defined.

Lemma retrieved_within_academic_witness :
  ∃ acts all,
    Database.load_activities_by_courses_choices Example.iso_code
      (Some Example.tables) {[ "Calculus I"%string := Example.only_cohen ]}
      "Main" ENGLISH = Ok acts
    ∧ Database.load_academic_activities Example.iso_code (Some Example.tables)
        "Main" ENGLISH [Example.calculus] = Ok all
    ∧ ∀ a, a ∈ acts →
           parent_course_number a
             ∈ Course.parent_course_number <$> [Example.calculus] →
           a ∈ all.
Proof.
  apply (retrieved_within_academic Example.iso_code Example.tables "Main" 1
           ENGLISH).
  reflexivity.
Defined.

Lemma offered_lecturers_are_scoped_witness :
  ∃ row course, row ∈ courses_lecturers Example.tables
                ∧ course ∈ [Example.calculus]
                ∧ Course.name course = "Calculus I"%string
                ∧ cl_lecturer_name row = "Levi"%string
                ∧ cl_is_lecture_rule row = true
                ∧ cl_campus_id row = 1
                ∧ cl_language_value row = Example.iso_code ENGLISH
                ∧ cl_course_number row = Course.course_number course
                ∧ cl_parent_course_number row = Course.parent_course_number course.
Proof.
  eapply (offered_lecturers_are_scoped Example.iso_code Example.tables "Main" 1
            ENGLISH Example.calculus []).
  - reflexivity.
  - reflexivity.
  - vm_compute. reflexivity.
  - vm_compute. first [left | right; left].
Defined.
